(** * GCP job utilities of axlearn (axlearn/cloud/gcp/job.py)

    A shallow embedding of the job-to-JobSet compilation, the job life
    cycle (construction, submission, deletion) and the remote command
    formatters, with the properties of the specification stated over it.

    Conventions.
    - Python [int] is [Z]; [str] is [string] (a sequence of 8-bit
      characters; every character above 127 is treated like any other
      character that is not an ASCII word character).
    - [Optional[T]] is [option T]; Python truthiness of an optional
      string is [truthy].
    - A [dict] used as a mapping is a [gmap]; a [dict] whose iteration
      order reaches the output is the list of its items.
    - Exceptions and the outside world (cluster, subprocesses) are
      threaded through the state-and-exception monad [M].
    - [logging] calls do not influence any result and are left out. *)

From Stdlib Require Import ZArith String Ascii List Lia Bool.
From stdpp Require Import gmap strings.

#[local] Arguments String.append !s1 s2 / : simpl nomatch.

(** ** Python values *)

(** [Nested[Any]]: the JSON-like documents produced by the replicated job
    builders and exchanged with the cluster API. *)
#[local] Unset Elimination Schemes.
Inductive Nested : Type :=
| NNone
| NBool (b : bool)
| NInt (z : Z)
| NStr (s : string)
| NList (l : list Nested)
| NDict (d : list (string * Nested)).
#[local] Set Elimination Schemes.

(** An exception object: its class name and its message. *)
Inductive exn : Type :=
| Exception (cls : string) (msg : string).

Definition exn_class (e : exn) : string :=
  match e with Exception cls _ => cls end.

Inductive result (A : Type) : Type :=
| Return (a : A)
| Raise (e : exn).
Arguments Return {A} a.
Arguments Raise {A} e.

(** Computations over a world [W] that may raise. *)
Definition M (W A : Type) : Type := W -> result A * W.

Definition ret {W A} (a : A) : M W A := fun w => (Return a, w).

Definition raise {W A} (e : exn) : M W A := fun w => (Raise e, w).

Definition bind {W A B} (m : M W A) (k : A -> M W B) : M W B :=
  fun w =>
    match m w with
    | (Return a, w') => k a w'
    | (Raise e, w') => (Raise e, w')
    end.

Notation "x <- m ;; k" := (bind m (fun x => k))
  (at level 100, m at next level, right associativity).

(** Truthiness of an [Optional[str]]: [None] and the empty string are
    false. *)
Definition truthy (o : option string) : bool :=
  match o with
  | None => false
  | Some s => negb (String.eqb s "")
  end.

(** ** Classes and configurations *)

(** A Python class, by its name and its method resolution order (the
    class itself first). *)
Record PyClass : Type := mkPyClass {
  cls_name : string;
  cls_mro : list string
}.

Definition issubclass (k : PyClass) (base : string) : bool :=
  existsb (String.eqb base) (cls_mro k).

(** A bundler configuration.  [inner] is [None] when the configuration
    has no attribute of that name, [Some v] when it has one of value [v]
    ([v] itself may be Python's [None]). *)
#[local] Unset Elimination Schemes.
Inductive BundlerConfig : Type :=
| mkBundlerConfig (klass : PyClass) (inner : option (option BundlerConfig)).
#[local] Set Elimination Schemes.

Definition klass (b : BundlerConfig) : PyClass :=
  match b with mkBundlerConfig k _ => k end.

Definition inner (b : BundlerConfig) : option (option BundlerConfig) :=
  match b with mkBundlerConfig _ i => i end.

(** [getattr(bundler_cfg, 'inner', bundler_cfg)], also for
    [bundler_cfg = None]. *)
Definition getattr_inner (bundler_cfg : option BundlerConfig)
  : option BundlerConfig :=
  match bundler_cfg with
  | None => None
  | Some b =>
      match inner b with
      | Some v => v
      | None => Some b
      end
  end.

Record AcceleratorConfig : Type := mkAcceleratorConfig {
  instance_type : option string;
  num_replicas : Z
}.

(** The fields of [BaseReplicatedJob.Config] that [GKEJob.__init__]
    sets; [b_klass] names the builder class. *)
Record BuilderConfig : Type := mkBuilderConfig {
  b_klass : string;
  b_name : option string;
  b_command : option string;
  b_accelerator : option AcceleratorConfig;
  b_project : option string;
  b_env_vars : gmap string string;
  b_service_account : option string;
  b_enable_pre_provisioner : option bool;
  b_output_dir : option string
}.

(** [GKEJob.Config], with the fields inherited from [Job.Config] and
    [GCPJob.Config]. *)
Record Config : Type := mkConfig {
  name : string;
  command : string;
  max_tries : Z;
  bundler : option BundlerConfig;
  project : string;
  zone : string;
  env_id : option string;
  service_account : option string;
  builder : BuilderConfig;
  accelerator : AcceleratorConfig;
  env_vars : gmap string string;
  namespace : string;
  enable_pre_provisioner : option bool;
  queue : option string;
  output_dir : option string
}.

(** ** The JobSet document *)

Record Metadata : Type := mkMetadata {
  md_name : string;
  annotations : gmap string string
}.

Record FailurePolicy : Type := mkFailurePolicy {
  maxRestarts : Z
}.

Record JobSetSpec : Type := mkJobSetSpec {
  failurePolicy : FailurePolicy;
  replicatedJobs : list Nested
}.

Record JobSetDocument : Type := mkJobSetDocument {
  metadata : Metadata;
  spec : JobSetSpec
}.

(** The body submitted to the cluster: the document with [apiVersion]
    and [kind] added. *)
Record CustomObject : Type := mkCustomObject {
  apiVersion : string;
  kind : string;
  body : JobSetDocument
}.

(** What [custom_jobset_kwargs()] returns. *)
Record ApiKwargs : Type := mkApiKwargs {
  group : string;
  version : string;
  plural : string
}.

Definition queue_name_key : string := "kueue.x-k8s.io/queue-name".

Definition exclusive_topology_key : string :=
  "alpha.jobset.sigs.k8s.io/exclusive-topology".

Definition BaseDockerBundler : string := "BaseDockerBundler".

(** ** External collaborators *)

(** An instantiated bundler; only its identity matters here. *)
Inductive Bundler : Type :=
| mkBundler (of_cfg : option BundlerConfig).

(** [subprocess.CompletedProcess]. *)
Record CompletedProcess : Type := mkCompletedProcess {
  args : string;
  returncode : Z;
  stdout : option string;
  stderr : option string
}.

(** The values an [_execute] method hands back ([-> Any]). *)
Inductive PyAny : Type :=
| PyNone
| PyResponse (r : Nested)
| PyCompletedProcess (p : CompletedProcess).

(** Everything job.py calls but does not define, over a world [W]:
    - [Job__init__]: the base class constructor [Job.__init__], which
      instantiates the bundler;
    - [builder_instantiate]: [cfg.builder.instantiate(bundler=...)], whose
      result is the callable [self._builder];
    - [custom_jobset_kwargs], [delete_k8s_jobset]: axlearn.cloud.gcp.utils;
    - [create_namespaced_custom_object]: the kubernetes client;
    - [subprocess_run]: axlearn.cloud.common.utils;
    - [bundler_repr]: the text of a bundler configuration in a message. *)
Class Platform (W : Type) : Type := mkPlatform {
  Job__init__ : Config -> M W Bundler;
  builder_instantiate : BuilderConfig -> Bundler -> M W (M W (list Nested));
  custom_jobset_kwargs : ApiKwargs;
  create_namespaced_custom_object :
    string -> CustomObject -> ApiKwargs -> M W Nested;
  delete_k8s_jobset : string -> string -> M W unit;
  subprocess_run : string -> gmap string Nested -> M W CompletedProcess;
  bundler_repr : option BundlerConfig -> string
}.

(** A constructed [GKEJob] (or subclass) object. *)
Record GKEJobObject (W : Type) : Type := mkGKEJobObject {
  config : Config;
  _bundler : Bundler;
  _builder : M W (list Nested)
}.
Arguments mkGKEJobObject {W} config _bundler _builder.
Arguments config {W} g.
Arguments _bundler {W} g.
Arguments _builder {W} g.

(** The flag values [from_flags] reads itself. *)
Record FlagValues : Type := mkFlagValues {
  fv_instance_type : option string;
  fv_num_replicas : Z
}.

(** What [from_flags] calls but job.py does not define, over a world [W]:
    - [super_from_flags]: the inherited [from_flags], which fills the
      configuration from the flags;
    - [gcp_settings]: [gcp_settings(key, default=..., fv=fv)] of
      axlearn.cloud.gcp.config;
    - [builder_from_flags]: [cls.builder.from_flags(fv)], by the name of
      the builder class. *)
Class Flags (W : Type) : Type := mkFlags {
  super_from_flags : FlagValues -> M W Config;
  gcp_settings : string -> string -> FlagValues -> M W (option string);
  builder_from_flags : string -> FlagValues -> M W BuilderConfig
}.

(** ** class GKEJob *)

Module GKEJob.

(** [cls_builder] is the class attribute [cls.builder].  The right operand
    of [or] is evaluated only when the left one is false. *)
Definition from_flags {W} {F : Flags W} (cls_builder : string) (fv : FlagValues)
  : M W Config :=
  cfg <- super_from_flags fv ;;
  the_service_account <-
    (if truthy (service_account cfg) then ret (service_account cfg)
     else gcp_settings "k8s_service_account" "default" fv) ;;
  let the_accelerator :=
    {| instance_type := fv_instance_type fv;
       num_replicas := fv_num_replicas fv |} in
  the_builder <- builder_from_flags cls_builder fv ;;
  ret {| name := name cfg;
         command := command cfg;
         max_tries := max_tries cfg;
         bundler := bundler cfg;
         project := project cfg;
         zone := zone cfg;
         env_id := env_id cfg;
         service_account := the_service_account;
         builder := the_builder;
         accelerator := the_accelerator;
         env_vars := env_vars cfg;
         namespace := namespace cfg;
         enable_pre_provisioner := enable_pre_provisioner cfg;
         queue := queue cfg;
         output_dir := output_dir cfg |}.

Definition __init__ {W} {P : Platform W} (cfg : Config) : M W (GKEJobObject W) :=
  let bundler_cfg := bundler cfg in
  let bundler_cfg := getattr_inner bundler_cfg in
  if match bundler_cfg with
     | None => true
     | Some b => negb (issubclass (klass b) BaseDockerBundler)
     end
  then
    raise (Exception "NotImplementedError"
             ("Only docker bundler supported, got: " +:+ bundler_repr bundler_cfg))
  else
    the_bundler <- Job__init__ cfg ;;
    the_builder <-
      builder_instantiate
        {| b_klass := b_klass (builder cfg);
           b_name := Some (name cfg);
           b_command := Some (command cfg);
           b_accelerator := Some (accelerator cfg);
           b_project := Some (project cfg);
           b_env_vars := env_vars cfg;
           b_service_account := service_account cfg;
           b_enable_pre_provisioner := enable_pre_provisioner cfg;
           b_output_dir := output_dir cfg |}
        the_bundler ;;
    ret (mkGKEJobObject cfg the_bundler the_builder).

Definition _delete {W} {P : Platform W} (self : GKEJobObject W) : M W unit :=
  let cfg := config self in
  delete_k8s_jobset (name cfg) (namespace cfg).

Definition _build_jobset {W} (self : GKEJobObject W) : M W JobSetDocument :=
  let cfg := config self in
  let annotations : gmap string string := ∅ in
  let annotations :=
    if truthy (queue cfg)
    then match queue cfg with
         | Some q => <[queue_name_key := q]> annotations
         | None => annotations
         end
    else annotations in
  let max_restarts := (max_tries cfg - 1)%Z in
  jobs <- _builder self ;;
  ret {| metadata := {| md_name := name cfg; annotations := annotations |};
         spec := {| failurePolicy := {| maxRestarts := max_restarts |};
                    replicatedJobs := jobs |} |}.

(** [self_build_jobset] is the method [self._build_jobset] resolves to
    in the class of [self]. *)
Definition _execute {W} {P : Platform W}
    (self_build_jobset : GKEJobObject W -> M W JobSetDocument)
    (self : GKEJobObject W) : M W PyAny :=
  let cfg := config self in
  let api_kwargs := custom_jobset_kwargs in
  jobset <- self_build_jobset self ;;
  let custom_object :=
    {| apiVersion := group api_kwargs +:+ "/" +:+ version api_kwargs;
       kind := "JobSet";
       body := jobset |} in
  r <- create_namespaced_custom_object (namespace cfg) custom_object api_kwargs ;;
  ret (PyResponse r).

End GKEJob.

(** ** class TPUGKEJob(GKEJob) *)

Module TPUGKEJob.

Definition builder : string := "TPUReplicatedJob".

Definition _build_jobset {W} (self : GKEJobObject W) : M W JobSetDocument :=
  jobset <- GKEJob._build_jobset self ;;
  ret {| metadata :=
           {| md_name := md_name (metadata jobset);
              annotations :=
                <[exclusive_topology_key := "cloud.google.com/gke-nodepool"]>
                  (annotations (metadata jobset)) |};
         spec := spec jobset |}.

Definition _execute {W} {P : Platform W} (self : GKEJobObject W) : M W PyAny :=
  GKEJob._execute _build_jobset self.

End TPUGKEJob.

(** ** class GPUGKEJob(GKEJob) *)

Module GPUGKEJob.

Definition builder : string := "A3ReplicatedJob".

(** Inherited unchanged. *)
Definition _build_jobset {W} (self : GKEJobObject W) : M W JobSetDocument :=
  GKEJob._build_jobset self.

Definition _execute {W} {P : Platform W} (self : GKEJobObject W) : M W PyAny :=
  GKEJob._execute _build_jobset self.

End GPUGKEJob.

(** ** Strings *)

Definition dquote : ascii := "034"%char.
Definition squote : ascii := "'"%char.
Definition backslash : ascii := "\"%char.
Definition dollar : ascii := "$"%char.
Definition backtick : ascii := "`"%char.
Definition space : ascii := " "%char.
Definition newline : ascii := "010"%char.
Definition tab : ascii := "009"%char.

(** [s.replace(old, new)] for a pattern [old] of one character. *)
Fixpoint replace (old : ascii) (new : string) (s : string) : string :=
  match s with
  | EmptyString => EmptyString
  | String c rest =>
      if Ascii.eqb c old then new +:+ replace old new rest
      else String c (replace old new rest)
  end.

Fixpoint forallb_string (p : ascii -> bool) (s : string) : bool :=
  match s with
  | EmptyString => true
  | String c rest => p c && forallb_string p rest
  end.


(** *** shlex.quote (Python standard library) *)

Definition in_range (lo hi : nat) (c : ascii) : bool :=
  (lo <=? nat_of_ascii c)%nat && (nat_of_ascii c <=? hi)%nat.

(** The complement of the class [[^\w@%+=:,./-]] under [re.ASCII]. *)
Definition is_safe (c : ascii) : bool :=
  in_range 97 122 c || in_range 65 90 c || in_range 48 57 c ||
  existsb (Ascii.eqb c)
    ["_"; "@"; "%"; "+"; "="; ":"; ","; "."; "/"; "-"]%char.

Definition quote (s : string) : string :=
  if String.eqb s EmptyString then "''"
  else if forallb_string is_safe s then s
  else
    String squote
      (replace squote
         (String squote (String dquote (String squote (String dquote
            (String squote EmptyString)))))
         s
       +:+ String squote EmptyString).

(** *** Module-level functions of job.py *)

Definition setdefault (k : string) (v : Nested) (kwargs : gmap string Nested)
  : gmap string Nested :=
  match kwargs !! k with
  | Some _ => kwargs
  | None => <[k := v]> kwargs
  end.

Definition is_absent (k : string) (kwargs : gmap string Nested) : bool :=
  match kwargs !! k with
  | Some _ => false
  | None => true
  end.

Definition _prepare_subprocess_kwargs (kwargs : gmap string Nested)
  : gmap string Nested :=
  let kwargs := setdefault "text" (NBool true) kwargs in
  let kwargs := setdefault "check" (NBool true) kwargs in
  let kwargs :=
    setdefault "capture_output"
      (NBool (is_absent "stdout" kwargs && is_absent "stderr" kwargs)) kwargs in
  kwargs.

Definition _prepare_cmd_for_gcloud_ssh (cmd : string) : string :=
  let cmd := quote cmd in
  let cmd := replace dquote (String backslash (String dquote EmptyString)) cmd in
  let cmd := replace dollar (String backslash (String dollar EmptyString)) cmd in
  cmd.

Definition docker_command (cmd : string) (image : string)
    (detached_session : option string)
    (env : option (list string))
    (volumes : option (list (string * string)))
    (extra_docker_flags : option (list string)) : string :=
  let cmd := _prepare_cmd_for_gcloud_ssh ("pushd /root && " +:+ cmd) in
  let cmd := "/bin/bash -c " +:+ cmd in
  let env :=
    String.concat " " (map (fun e => "-e " +:+ e) (default [] env)) in
  let volumes :=
    String.concat " "
      (map (fun '(src, dst) => "-v " +:+ src +:+ ":" +:+ dst)
         (default [] volumes)) in
  let extra_docker_flags := String.concat " " (default [] extra_docker_flags) in
  let detached :=
    if truthy detached_session
    then "-d --name=" +:+ default EmptyString detached_session
    else EmptyString in
  "docker run --rm --privileged -u root --network=host " +:+ detached +:+ " "
    +:+ env +:+ " " +:+ volumes +:+ " "
    +:+ extra_docker_flags +:+ " " +:+ image +:+ " " +:+ cmd.

(** ** class CPUJob(GCPJob) *)

Module CPUJob.

(** [GCPJob.Config] with the fields inherited from [Job.Config]. *)
Record Config : Type := mkConfig {
  name : string;
  command : string;
  max_tries : Z;
  project : string;
  zone : string;
  env_id : option string;
  service_account : option string
}.

(** The command line [_execute_remote_cmd] hands to [subprocess_run]:
    the final value of its local variable [cmd]. *)
Definition remote_cmd (cfg : Config) (cmd : string)
    (detached_session : option string) : string :=
  let cmd := _prepare_cmd_for_gcloud_ssh ("pushd /root && " +:+ cmd) in
  let cmd := "sudo -i bash -c " +:+ cmd in
  let cmd :=
    if truthy detached_session
    then "sudo screen -dmS " +:+ default EmptyString detached_session
           +:+ " " +:+ cmd
    else cmd in
  "gcloud compute -q ssh " +:+ name cfg +:+ " "
    +:+ "--project=" +:+ project cfg +:+ " "
    +:+ "--zone=" +:+ zone cfg +:+ " "
    +:+ "--command=" +:+ String dquote (cmd +:+ String dquote EmptyString).

Definition _execute_remote_cmd {W} {P : Platform W} (self : Config) (cmd : string)
    (detached_session : option string) (kwargs : gmap string Nested)
  : M W CompletedProcess :=
  let cfg := self in
  proc <- subprocess_run (remote_cmd cfg cmd detached_session)
            (_prepare_subprocess_kwargs kwargs) ;;
  ret proc.

(** No [return] statement: the value of the call is [None]. *)
Definition _execute {W} {P : Platform W} (self : Config) : M W PyAny :=
  let cfg := self in
  _ <- _execute_remote_cmd self (command cfg) None ∅ ;;
  ret PyNone.

End CPUJob.

(** ** A POSIX shell reading one word

    The fragment of the quoting rules of the POSIX shell command language
    (section 2.2) that decides how a word made of unquoted, single-quoted
    and double-quoted parts is read.  [sh_word_from m s] is [Some v] when
    [s], read from quoting state [m], is one complete word whose value is
    the literal text [v] with no expansion, substitution or field
    splitting taking place, and [None] otherwise.

    - Single quotes preserve every character up to the next single quote.
    - Inside double quotes, a dollar sign or a backquote starts an
      expansion; a backslash escapes a dollar sign, a backquote, a double
      quote or a backslash, joins lines before a newline, and is kept
      with the next character otherwise.
    - Outside quotes a backslash preserves the next character (and joins
      lines before a newline); operators, blanks, expansion and pattern
      characters are not literal.  The number sign and the tilde are
      counted as special wherever they stand. *)

Inductive qmode : Type := Unquoted | SingleQuoted | DoubleQuoted.

Definition sh_special (c : ascii) : bool :=
  existsb (Ascii.eqb c)
    ["|"; "&"; ";"; "<"; ">"; "("; ")"; "$"; "`"; "\"; "'"; " "; "*"; "?";
     "["; "#"; "~"]%char
  || Ascii.eqb c dquote || Ascii.eqb c tab || Ascii.eqb c newline.

Definition dq_escapable (c : ascii) : bool :=
  Ascii.eqb c dollar || Ascii.eqb c backtick || Ascii.eqb c dquote
  || Ascii.eqb c backslash.

Definition lit (c : ascii) (r : option string) : option string :=
  match r with
  | Some v => Some (String c v)
  | None => None
  end.

Fixpoint sh_word_from (m : qmode) (s : string) : option string :=
  match s with
  | EmptyString =>
      match m with
      | Unquoted => Some EmptyString
      | _ => None
      end
  | String c rest =>
      match m with
      | SingleQuoted =>
          if Ascii.eqb c squote then sh_word_from Unquoted rest
          else lit c (sh_word_from SingleQuoted rest)
      | DoubleQuoted =>
          if Ascii.eqb c dquote then sh_word_from Unquoted rest
          else if Ascii.eqb c backslash then
            match rest with
            | EmptyString => None
            | String d rest' =>
                if dq_escapable d then lit d (sh_word_from DoubleQuoted rest')
                else if Ascii.eqb d newline then sh_word_from DoubleQuoted rest'
                else lit c (lit d (sh_word_from DoubleQuoted rest'))
            end
          else if Ascii.eqb c dollar || Ascii.eqb c backtick then None
          else lit c (sh_word_from DoubleQuoted rest)
      | Unquoted =>
          if Ascii.eqb c squote then sh_word_from SingleQuoted rest
          else if Ascii.eqb c dquote then sh_word_from DoubleQuoted rest
          else if Ascii.eqb c backslash then
            match rest with
            | EmptyString => None
            | String d rest' =>
                if Ascii.eqb d newline then sh_word_from Unquoted rest'
                else lit d (sh_word_from Unquoted rest')
            end
          else if sh_special c then None
          else lit c (sh_word_from Unquoted rest)
      end
  end.

Definition sh_word (s : string) : option string := sh_word_from Unquoted s.

(** The value the local shell gives to the double-quoted argument
    [--command=...] whose body is [body]. *)
Definition sh_dquoted (body : string) : option string :=
  sh_word (String dquote (body +:+ String dquote EmptyString)).

(** What is left of [cmd] after [_prepare_cmd_for_gcloud_ssh], the local
    shell reading it inside the double quotes of [--command], and the
    remote shell reading the result as one word. *)
Definition shell_roundtrip (cmd : string) : option string :=
  match sh_dquoted (_prepare_cmd_for_gcloud_ssh cmd) with
  | Some v => sh_word v
  | None => None
  end.

(** ** Blank-separated fields of a command line *)

(** [s.split(sep)] for a separator of one character. *)
Fixpoint split_on (sep : ascii) (s : string) : list string :=
  match s with
  | EmptyString => [EmptyString]
  | String c rest =>
      if Ascii.eqb c sep then EmptyString :: split_on sep rest
      else
        match split_on sep rest with
        | [] => [String c EmptyString]
        | w :: ws => String c w :: ws
        end
  end.

Definition nonempty (s : string) : bool := negb (String.eqb s EmptyString).

(** The fields of [s] between runs of spaces. *)
Definition words (s : string) : list string :=
  List.filter nonempty (split_on space s).

(** A field: not empty and without a space. *)
Definition is_token (s : string) : bool :=
  nonempty s && forallb_string (fun c => negb (Ascii.eqb c space)) s.

(** ** The cluster *)

(** The state of the cluster as far as this module can tell: the JobSets
    by (namespace, name), the names of the objects each of them owns, and
    whether the API server currently refuses requests. *)
Record Cluster : Type := mkCluster {
  jobsets : gmap (string * string) CustomObject;
  descendants : gmap (string * string) (list string);
  refusing : option string
}.

(** Modelled from the spec: [delete_k8s_jobset] of axlearn.cloud.gcp.utils
    is not part of job.py.  It issues a delete request for the named JobSet
    and removes the descendant objects the JobSet owns (their teardown,
    asynchronous in the cluster, is taken to be immediate here); a target
    that does not exist is treated as success, any other failure is
    surfaced as a [DeletionError]. *)
Definition delete_k8s_jobset_model (name namespace : string) : M Cluster unit :=
  fun c =>
    match jobsets c !! (namespace, name) with
    | None => (Return tt, c)
    | Some _ =>
        match refusing c with
        | Some why => (Raise (Exception "DeletionError" why), c)
        | None =>
            (Return tt,
             {| jobsets := delete (namespace, name) (jobsets c);
                descendants := delete (namespace, name) (descendants c);
                refusing := None |})
        end
    end.

(** A cluster API for running the job classes on [Cluster]: creation
    stores the body under its namespace and name and refuses a name that
    is taken; constructors and subprocesses succeed. *)
Definition cluster_platform : Platform Cluster :=
  {| Job__init__ := fun cfg => ret (mkBundler (bundler cfg));
     builder_instantiate := fun bc _ =>
       ret (ret [NDict [("name", NStr (default EmptyString (b_name bc)))]]);
     custom_jobset_kwargs :=
       {| group := "jobset.x-k8s.io"; version := "v1alpha2"; plural := "jobsets" |};
     create_namespaced_custom_object := fun ns obj _ c =>
       let key := (ns, md_name (metadata (body obj))) in
       match jobsets c !! key, refusing c with
       | None, None =>
           (Return (NDict [("kind", NStr (kind obj))]),
            {| jobsets := <[key := obj]> (jobsets c);
               descendants := descendants c;
               refusing := None |})
       | _, _ => (Raise (Exception "ApiException" "create refused"), c)
       end;
     delete_k8s_jobset := delete_k8s_jobset_model;
     subprocess_run := fun cmd _ =>
       ret {| args := cmd; returncode := 0;
              stdout := Some EmptyString; stderr := Some EmptyString |};
     bundler_repr := fun b =>
       match b with
       | None => "None"
       | Some c => cls_name (klass c)
       end |}.

Definition empty_cluster : Cluster :=
  {| jobsets := ∅; descendants := ∅; refusing := None |}.

(** Sample configurations. *)
Definition docker_bundler_cfg : BundlerConfig :=
  mkBundlerConfig
    {| cls_name := "ArtifactRegistryBundler";
       cls_mro := ["ArtifactRegistryBundler"; "BaseDockerBundler"; "Bundler";
                   "Configurable"; "object"] |}
    None.

Definition wrapped_bundler_cfg : BundlerConfig :=
  mkBundlerConfig
    {| cls_name := "WrappedBundler";
       cls_mro := ["WrappedBundler"; "Bundler"; "Configurable"; "object"] |}
    (Some (Some docker_bundler_cfg)).

Definition sample_config (the_name : string) (tries : Z)
    (the_bundler : option BundlerConfig) (the_queue : option string) : Config :=
  {| name := the_name;
     command := "python3 -m train";
     max_tries := tries;
     bundler := the_bundler;
     project := "my-project";
     zone := "us-east5-b";
     env_id := None;
     service_account := None;
     builder :=
       {| b_klass := "TPUReplicatedJob"; b_name := None; b_command := None;
          b_accelerator := None; b_project := None; b_env_vars := ∅;
          b_service_account := None; b_enable_pre_provisioner := None;
          b_output_dir := None |};
     accelerator := {| instance_type := Some "tpu-v4-8"; num_replicas := 1 |};
     env_vars := ∅;
     namespace := "default";
     enable_pre_provisioner := None;
     queue := the_queue;
     output_dir := None |}.

(** A job object whose builder yields one replicated job. *)
Definition sample_job (cfg : Config) : GKEJobObject Cluster :=
  mkGKEJobObject cfg (mkBundler (bundler cfg))
    (ret [NDict [("name", NStr (name cfg))]]).

(** The bundler configurations [GKEJob.__init__] turns down. *)
Definition unsupported (b : option BundlerConfig) : Prop :=
  b = None \/
  exists c, b = Some c /\ issubclass (klass c) BaseDockerBundler = false.


(** Characters that are neither a backslash nor a backquote. *)
Definition dq_inert (c : ascii) : bool :=
  negb (Ascii.eqb c backslash || Ascii.eqb c backtick).


(** Flags for trying [from_flags]: the inherited method returns [base],
    the settings hold [setting] (or nothing) for every key. *)
Definition sample_flags (base : Config) (setting : option string) : Flags Cluster :=
  {| super_from_flags := fun _ => ret base;
     gcp_settings := fun _ dflt _ =>
       ret (match setting with
            | Some v => Some v
            | None => Some dflt
            end);
     builder_from_flags := fun k _ =>
       ret {| b_klass := k; b_name := None; b_command := None;
              b_accelerator := None; b_project := None; b_env_vars := ∅;
              b_service_account := None; b_enable_pre_provisioner := None;
              b_output_dir := None |} |}.

(** Dropping the backslash in front of every [c]: the inverse of
    [replace c] with a backslash and [c]. *)
Fixpoint unescape (c : ascii) (s : string) : string :=
  match s with
  | EmptyString => EmptyString
  | String b rest =>
      match rest with
      | EmptyString => String b EmptyString
      | String d rest' =>
          if Ascii.eqb b backslash && Ascii.eqb d c
          then String d (unescape c rest')
          else String b (unescape c rest)
      end
  end.

(** Commands the double quotes of [--command] leave alone: no backquote,
    and no backslash in front of a backslash, a double quote, a dollar
    sign or a newline. *)
Fixpoint dq_survives (s : string) : bool :=
  match s with
  | EmptyString => true
  | String c rest =>
      negb (Ascii.eqb c backtick)
      && (if Ascii.eqb c backslash
          then match rest with
               | EmptyString => true
               | String d _ => negb (dq_escapable d || Ascii.eqb d newline)
               end
          else true)
      && dq_survives rest
  end.

(** * Properties *)

(** ** Building the JobSet document *)

Lemma bind_ret_inv {W A B} (m : M W A) (k : A -> B) (w : W) r w' :
  (x <- m ;; ret (k x)) w = (Return r, w') ->
  exists a, m w = (Return a, w') /\ r = k a.
Proof.
  unfold bind, ret. destruct (m w) as [[a|e] w1]; intros Heq.
  - inversion Heq; subst. eauto.
  - discriminate.
Qed.

Lemma build_jobset_returns {W} (self : GKEJobObject W) (w : W) jobs w' :
  _builder self w = (Return jobs, w') ->
  GKEJob._build_jobset self w =
    (Return
       {| metadata :=
            {| md_name := name (config self);
               annotations :=
                 if truthy (queue (config self))
                 then match queue (config self) with
                      | Some q => <[queue_name_key := q]> ∅
                      | None => ∅
                      end
                 else ∅ |};
          spec :=
            {| failurePolicy := {| maxRestarts := max_tries (config self) - 1 |};
               replicatedJobs := jobs |} |}, w').
Proof.
  intros Hb. unfold GKEJob._build_jobset, bind, ret. rewrite Hb. reflexivity.
Qed.

Lemma build_jobset_inv {W} (self : GKEJobObject W) (w : W) doc w' :
  GKEJob._build_jobset self w = (Return doc, w') ->
  exists jobs, _builder self w = (Return jobs, w').
Proof.
  unfold GKEJob._build_jobset. intros Hd.
  apply bind_ret_inv in Hd. destruct Hd as [jobs [Hb _]]. eauto.
Qed.

(** C1.  When [max_tries >= 1], every document [_build_jobset] returns
    has [spec.failurePolicy.maxRestarts = max_tries - 1], and the method
    does return a document whenever the builder returns its jobs. *)
Theorem C1_maxRestarts {W} (self : GKEJobObject W) (w : W) :
  (1 <= max_tries (config self))%Z ->
  (forall doc w',
     GKEJob._build_jobset self w = (Return doc, w') ->
     maxRestarts (failurePolicy (spec doc)) = (max_tries (config self) - 1)%Z) /\
  (forall jobs w',
     _builder self w = (Return jobs, w') ->
     exists doc,
       GKEJob._build_jobset self w = (Return doc, w') /\
       maxRestarts (failurePolicy (spec doc)) = (max_tries (config self) - 1)%Z /\
       (0 <= maxRestarts (failurePolicy (spec doc)))%Z).
Proof.
  intros Hge. split.
  - intros doc w' Hd.
    destruct (build_jobset_inv _ _ _ _ Hd) as [jobs Hb].
    rewrite (build_jobset_returns _ _ _ _ Hb) in Hd.
    inversion Hd; subst; reflexivity.
  - intros jobs w' Hb. eexists. split.
    + apply build_jobset_returns, Hb.
    + simpl. split; [reflexivity | lia].
Qed.

Lemma C1_maxRestarts_witness :
  exists doc,
    GKEJob._build_jobset
      (sample_job (sample_config "job1" 3 (Some docker_bundler_cfg) None))
      empty_cluster = (Return doc, empty_cluster) /\
    maxRestarts (failurePolicy (spec doc)) = 2%Z.
Proof.
  destruct (C1_maxRestarts
              (sample_job (sample_config "job1" 3 (Some docker_bundler_cfg) None))
              empty_cluster) as [_ Hex].
  - simpl. lia.
  - destruct (Hex [NDict [("name", NStr "job1")]] empty_cluster eq_refl)
      as [doc [Hd [Hm _]]].
    exists doc. split; [exact Hd | exact Hm].
Defined.

Lemma build_jobset_raises {W} (self : GKEJobObject W) (w : W) e w' :
  GKEJob._build_jobset self w = (Raise e, w') <->
  _builder self w = (Raise e, w').
Proof.
  unfold GKEJob._build_jobset, bind, ret.
  destruct (_builder self w) as [[jobs|e0] w0]; simpl; split; intros Heq;
    first [discriminate Heq | inversion Heq; reflexivity].
Qed.

Lemma truthy_Some (o : option string) :
  truthy o = true <-> exists q, o = Some q /\ q <> EmptyString.
Proof.
  destruct o as [q|]; simpl.
  - destruct (String.eqb_spec q EmptyString) as [->|Hne]; simpl; split.
    + discriminate.
    + intros [q [Hq Hne]]. inversion Hq; subst. contradiction.
    + intros _. eauto.
    + reflexivity.
  - split; [discriminate | intros [q [Hq _]]; discriminate].
Qed.

Lemma queue_annotation_lookup (o : option string) :
  (if truthy o
   then match o with
        | Some q => <[queue_name_key := q]> (∅ : gmap string string)
        | None => ∅
        end
   else ∅) !! queue_name_key
  = if truthy o then o else None.
Proof.
  destruct o as [q|]; simpl; [|apply lookup_empty].
  destruct (negb (String.eqb q EmptyString)).
  - apply lookup_insert_eq.
  - apply lookup_empty.
Qed.

(** C2.  The annotations of the document [_build_jobset] returns map
    [kueue.x-k8s.io/queue-name] to [q] exactly when the configured queue
    is the non-empty name [q]; with no queue (or an empty name)
    configured the key is absent.  The method returns a document whenever
    the builder returns its jobs. *)
Theorem C2_queue_annotation {W} (self : GKEJobObject W) (w : W) :
  (forall doc w',
     GKEJob._build_jobset self w = (Return doc, w') ->
     (forall q,
        annotations (metadata doc) !! queue_name_key = Some q <->
        (queue (config self) = Some q /\ q <> EmptyString)) /\
     ((queue (config self) = None \/ queue (config self) = Some EmptyString) ->
      annotations (metadata doc) !! queue_name_key = None)) /\
  (forall jobs w',
     _builder self w = (Return jobs, w') ->
     exists doc, GKEJob._build_jobset self w = (Return doc, w')).
Proof.
  split.
  - intros doc w' Hd.
    destruct (build_jobset_inv _ _ _ _ Hd) as [jobs Hb].
    rewrite (build_jobset_returns _ _ _ _ Hb) in Hd.
    inversion Hd; subst; clear Hd. cbn [annotations metadata].
    rewrite queue_annotation_lookup.
    split.
    + intros q. destruct (truthy (queue (config self))) eqn:Ht.
      * apply truthy_Some in Ht. destruct Ht as [q0 [Hq Hne]].
        rewrite Hq. split.
        -- intros Heq. inversion Heq; subst. auto.
        -- intros [Heq _]. exact Heq.
      * split; [discriminate|].
        intros [Hq Hne].
        assert (truthy (queue (config self)) = true) as Ht'
          by (apply truthy_Some; eauto).
        congruence.
    + intros [Hq|Hq]; rewrite Hq; reflexivity.
  - intros jobs w' Hb. eexists. apply build_jobset_returns, Hb.
Qed.

Lemma tpu_build_jobset_returns {W} (self : GKEJobObject W) (w : W) base w' :
  GKEJob._build_jobset self w = (Return base, w') ->
  TPUGKEJob._build_jobset self w =
    (Return
       {| metadata :=
            {| md_name := md_name (metadata base);
               annotations :=
                 <[exclusive_topology_key := "cloud.google.com/gke-nodepool"]>
                   (annotations (metadata base)) |};
          spec := spec base |}, w').
Proof.
  intros Hb. unfold TPUGKEJob._build_jobset, bind, ret. rewrite Hb. reflexivity.
Qed.

Lemma keys_differ : exclusive_topology_key <> queue_name_key.
Proof. discriminate. Qed.

Lemma base_has_no_topology {W} (self : GKEJobObject W) (w : W) base w' :
  GKEJob._build_jobset self w = (Return base, w') ->
  annotations (metadata base) !! exclusive_topology_key = None.
Proof.
  intros Hd.
  destruct (build_jobset_inv _ _ _ _ Hd) as [jobs Hb].
  rewrite (build_jobset_returns _ _ _ _ Hb) in Hd.
  inversion Hd; subst; clear Hd. cbn [annotations metadata].
  destruct (truthy (queue (config self))); [|apply lookup_empty].
  destruct (queue (config self)) as [q|]; [|apply lookup_empty].
  rewrite lookup_insert_ne; [apply lookup_empty|].
  intros Heq. apply keys_differ. symmetry. exact Heq.
Qed.

(** C3.  Whenever the builder returns its jobs, the three classes return
    documents such that: the document of [TPUGKEJob] carries the annotation
    [alpha.jobset.sigs.k8s.io/exclusive-topology] and otherwise extends the
    base document (every base annotation is kept with its value, the queue
    annotation included; the name and the whole [spec], that is
    [failurePolicy] and [replicatedJobs], are those of the base document);
    the document of [GPUGKEJob] is the base document and does not carry
    that annotation. *)
Theorem C3_topology_annotation {W} (self : GKEJobObject W) (w : W) :
  forall jobs w',
    _builder self w = (Return jobs, w') ->
    exists base tpu gpu,
      GKEJob._build_jobset self w = (Return base, w') /\
      TPUGKEJob._build_jobset self w = (Return tpu, w') /\
      GPUGKEJob._build_jobset self w = (Return gpu, w') /\
      annotations (metadata tpu) !! exclusive_topology_key
        = Some "cloud.google.com/gke-nodepool" /\
      annotations (metadata base) ⊆ annotations (metadata tpu) /\
      annotations (metadata tpu) !! queue_name_key
        = annotations (metadata base) !! queue_name_key /\
      md_name (metadata tpu) = md_name (metadata base) /\
      spec tpu = spec base /\
      gpu = base /\
      annotations (metadata gpu) !! exclusive_topology_key = None.
Proof.
  intros jobs w' Hb.
  pose proof (build_jobset_returns _ _ _ _ Hb) as Hbase.
  pose proof (tpu_build_jobset_returns _ _ _ _ Hbase) as Htpu.
  pose proof (base_has_no_topology _ _ _ _ Hbase) as Hnone.
  eexists _, _, _.
  split; [exact Hbase|]. split; [exact Htpu|].
  split; [exact Hbase|].
  cbn [annotations metadata md_name spec] in *.
  split; [apply lookup_insert_eq|].
  split; [apply insert_subseteq; exact Hnone|].
  split; [apply lookup_insert_ne, keys_differ|].
  repeat split. exact Hnone.
Qed.

Lemma C3_topology_annotation_witness :
  exists tpu gpu,
    TPUGKEJob._build_jobset
      (sample_job (sample_config "job1" 3 (Some docker_bundler_cfg) None))
      empty_cluster = (Return tpu, empty_cluster) /\
    GPUGKEJob._build_jobset
      (sample_job (sample_config "job1" 3 (Some docker_bundler_cfg) None))
      empty_cluster = (Return gpu, empty_cluster) /\
    annotations (metadata tpu) !! exclusive_topology_key
      = Some "cloud.google.com/gke-nodepool" /\
    annotations (metadata gpu) !! exclusive_topology_key = None.
Proof.
  destruct (C3_topology_annotation
              (sample_job (sample_config "job1" 3 (Some docker_bundler_cfg) None))
              empty_cluster [NDict [("name", NStr "job1")]] empty_cluster eq_refl)
    as [base [tpu [gpu [_ [Ht [Hg [Hk [_ [_ [_ [_ [_ Hn]]]]]]]]]]]].
  exists tpu, gpu. auto.
Defined.

(** C4 (as amended).  [_build_jobset] does not validate [max_tries]: when
    [max_tries < 1] and the builder returns its jobs, it returns a document
    whose [maxRestarts] is [max_tries - 1], a negative number; the only
    exceptions it raises are those of the builder. *)
Theorem C4_no_validation {W} (self : GKEJobObject W) (w : W) :
  (max_tries (config self) < 1)%Z ->
  (forall jobs w',
     _builder self w = (Return jobs, w') ->
     exists doc,
       GKEJob._build_jobset self w = (Return doc, w') /\
       maxRestarts (failurePolicy (spec doc)) = (max_tries (config self) - 1)%Z /\
       (maxRestarts (failurePolicy (spec doc)) < 0)%Z) /\
  (forall e w',
     GKEJob._build_jobset self w = (Raise e, w') ->
     _builder self w = (Raise e, w')).
Proof.
  intros Hlt. split.
  - intros jobs w' Hb. eexists. split.
    + apply build_jobset_returns, Hb.
    + simpl. split; [reflexivity | lia].
  - intros e w' Hr. apply build_jobset_raises, Hr.
Qed.

Lemma C4_no_validation_witness :
  exists doc,
    GKEJob._build_jobset
      (sample_job (sample_config "job0" (-2) (Some docker_bundler_cfg) None))
      empty_cluster = (Return doc, empty_cluster) /\
    maxRestarts (failurePolicy (spec doc)) = (-3)%Z.
Proof.
  destruct (C4_no_validation
              (sample_job (sample_config "job0" (-2) (Some docker_bundler_cfg) None))
              empty_cluster) as [Hex _].
  - simpl. lia.
  - destruct (Hex [NDict [("name", NStr "job0")]] empty_cluster eq_refl)
      as [doc [Hd [Hm _]]].
    exists doc. split; [exact Hd | exact Hm].
Defined.

(** C4, the claim as stated, fails: with [max_tries = 0] a document is
    returned, with [maxRestarts = -1], and no [ConfigError] is raised. *)
Lemma C4_counterexample :
  (max_tries (sample_config "job0" 0 (Some docker_bundler_cfg) None) < 1)%Z /\
  GKEJob._build_jobset
    (sample_job (sample_config "job0" 0 (Some docker_bundler_cfg) None))
    empty_cluster
  = (Return
       {| metadata := {| md_name := "job0"; annotations := ∅ |};
          spec := {| failurePolicy := {| maxRestarts := -1 |};
                     replicatedJobs := [NDict [("name", NStr "job0")]] |} |},
     empty_cluster).
Proof. split; [simpl; lia | reflexivity]. Qed.

(** ** Construction *)

Lemma init_unsupported {W} {P : Platform W} (cfg : Config) (w : W) :
  unsupported (getattr_inner (bundler cfg)) ->
  GKEJob.__init__ cfg w =
    (Raise (Exception "NotImplementedError"
              ("Only docker bundler supported, got: "
               +:+ bundler_repr (getattr_inner (bundler cfg)))), w).
Proof.
  unfold GKEJob.__init__. intros [Hn | [c [Hc Hk]]].
  - rewrite Hn. reflexivity.
  - rewrite Hc, Hk. reflexivity.
Qed.

Lemma unsupported_dec (b : option BundlerConfig) :
  unsupported b \/
  exists c, b = Some c /\ issubclass (klass c) BaseDockerBundler = true.
Proof.
  destruct b as [c|]; [|left; left; reflexivity].
  destruct (issubclass (klass c) BaseDockerBundler) eqn:Hk.
  - right. eauto.
  - left. right. eauto.
Qed.

(** C7 (as amended).  Let the effective bundler configuration be the
    [inner] attribute of [cfg.bundler] when it has one and [cfg.bundler]
    itself otherwise.  When it is missing or its class is not a subclass
    of [BaseDockerBundler], [GKEJob.__init__] raises [NotImplementedError]
    and leaves the world as it found it (nothing is instantiated or
    submitted); a construction that succeeds had an effective bundler of a
    docker class. *)
Theorem C7_unsupported_bundler {W} {P : Platform W} (cfg : Config) (w : W) :
  (unsupported (getattr_inner (bundler cfg)) ->
   exists msg,
     GKEJob.__init__ cfg w = (Raise (Exception "NotImplementedError" msg), w)) /\
  (forall obj w',
     GKEJob.__init__ cfg w = (Return obj, w') ->
     exists c,
       getattr_inner (bundler cfg) = Some c /\
       issubclass (klass c) BaseDockerBundler = true).
Proof.
  split.
  - intros Hu. eexists. apply init_unsupported, Hu.
  - intros obj w' Hr.
    destruct (unsupported_dec (getattr_inner (bundler cfg))) as [Hu | Hs].
    + rewrite (init_unsupported _ _ Hu) in Hr. discriminate Hr.
    + exact Hs.
Qed.

(** C7, the claim as stated, fails twice over.  A bundler configuration of
    a class that is not docker-based, wrapping a docker-based one in its
    [inner] attribute, is accepted; and the exception raised for a missing
    bundler is a [NotImplementedError], not a [ConfigError]. *)
Lemma C7_counterexample :
  issubclass (klass wrapped_bundler_cfg) BaseDockerBundler = false /\
  (exists obj,
     GKEJob.__init__ (P := cluster_platform)
       (sample_config "job1" 3 (Some wrapped_bundler_cfg) None) empty_cluster
     = (Return obj, empty_cluster)) /\
  GKEJob.__init__ (P := cluster_platform)
    (sample_config "job1" 3 None None) empty_cluster
  = (Raise (Exception "NotImplementedError"
              "Only docker bundler supported, got: None"), empty_cluster).
Proof.
  split; [reflexivity|]. split; [|reflexivity].
  eexists. reflexivity.
Qed.

(** ** Deletion *)

(** C6.  With [delete_k8s_jobset] as the specification describes it,
    [_delete] on a job whose JobSet is not in the cluster returns normally
    and leaves the cluster as it is; and after a [_delete] that returned
    normally, deleting again returns normally and changes nothing. *)
Theorem C6_delete_absent (P : Platform Cluster)
    (self : GKEJobObject Cluster) (c : Cluster) :
  @delete_k8s_jobset Cluster P = delete_k8s_jobset_model ->
  (jobsets c !! (namespace (config self), name (config self)) = None ->
   GKEJob._delete self c = (Return tt, c)) /\
  (forall c1,
     GKEJob._delete self c = (Return tt, c1) ->
     GKEJob._delete self c1 = (Return tt, c1)).
Proof.
  intros HP. unfold GKEJob._delete. rewrite HP.
  unfold delete_k8s_jobset_model. split.
  - intros Habs. rewrite Habs. reflexivity.
  - intros c1.
    destruct (jobsets c !! (namespace (config self), name (config self)))
      as [obj|] eqn:Hl.
    + destruct (refusing c) as [why|]; [discriminate|].
      intros Heq. inversion Heq; subst; clear Heq.
      cbn [jobsets]. rewrite lookup_delete_eq. reflexivity.
    + intros Heq. inversion Heq; subst. rewrite Hl. reflexivity.
Qed.

Lemma C6_delete_absent_witness :
  GKEJob._delete (P := cluster_platform)
    (sample_job (sample_config "job1" 3 (Some docker_bundler_cfg) None))
    empty_cluster
  = (Return tt, empty_cluster).
Proof.
  apply (C6_delete_absent cluster_platform
           (sample_job (sample_config "job1" 3 (Some docker_bundler_cfg) None))
           empty_cluster eq_refl).
  reflexivity.
Defined.

(** ** Execution *)

(** C10.  [CPUJob._execute] runs the remote command and returns [None]
    whatever [CompletedProcess] came back: its value never carries the
    output or exit status of the command (an exception of the remote
    command still propagates).  [GKEJob._execute] returns the response of
    the cluster to the creation request. *)
Theorem C10_cpu_execute_returns_None {W} {P : Platform W}
    (cfg : CPUJob.Config) (w : W) :
  (forall p w',
     subprocess_run (CPUJob.remote_cmd cfg (CPUJob.command cfg) None)
       (_prepare_subprocess_kwargs ∅) w = (Return p, w') ->
     CPUJob._execute_remote_cmd cfg (CPUJob.command cfg) None ∅ w
       = (Return p, w') /\
     CPUJob._execute cfg w = (Return PyNone, w')) /\
  (forall v w',
     CPUJob._execute cfg w = (Return v, w') ->
     v = PyNone /\
     exists p,
       CPUJob._execute_remote_cmd cfg (CPUJob.command cfg) None ∅ w
         = (Return p, w')) /\
  (forall e w',
     CPUJob._execute_remote_cmd cfg (CPUJob.command cfg) None ∅ w
       = (Raise e, w') ->
     CPUJob._execute cfg w = (Raise e, w')) /\
  (forall (self : GKEJobObject W) build doc r w1 w2,
     build self w = (Return doc, w1) ->
     create_namespaced_custom_object (namespace (config self))
       {| apiVersion :=
            group custom_jobset_kwargs +:+ "/" +:+ version custom_jobset_kwargs;
          kind := "JobSet";
          body := doc |}
       custom_jobset_kwargs w1 = (Return r, w2) ->
     GKEJob._execute build self w = (Return (PyResponse r), w2)).
Proof.
  split; [|split; [|split]].
  - intros p w' Hrun.
    assert (CPUJob._execute_remote_cmd cfg (CPUJob.command cfg) None ∅ w
            = (Return p, w')) as Hcmd
      by (unfold CPUJob._execute_remote_cmd, bind, ret; rewrite Hrun; reflexivity).
    split; [exact Hcmd|].
    unfold CPUJob._execute, bind, ret. rewrite Hcmd. reflexivity.
  - intros v w' Hex. unfold CPUJob._execute in Hex.
    apply bind_ret_inv in Hex. destruct Hex as [p [Hp Hv]]. eauto.
  - intros e w' Hr. unfold CPUJob._execute, bind. rewrite Hr. reflexivity.
  - intros self build doc r w1 w2 Hb Hc.
    unfold GKEJob._execute, bind, ret. rewrite Hb, Hc. reflexivity.
Qed.

(** ** Escaping for the shell *)

Lemma append_assoc (a b c : string) : (a +:+ b) +:+ c = a +:+ (b +:+ c).
Proof. induction a as [|x a IH]; simpl; [reflexivity | rewrite IH; reflexivity]. Qed.

Lemma append_cons (c : ascii) (a b : string) :
  String c a +:+ b = String c (a +:+ b).
Proof. reflexivity. Qed.

Lemma append_empty_r (a : string) : a +:+ EmptyString = a.
Proof. induction a as [|x a IH]; simpl; [reflexivity | rewrite IH; reflexivity]. Qed.

Lemma forallb_string_app p (a b : string) :
  forallb_string p (a +:+ b) = forallb_string p a && forallb_string p b.
Proof.
  induction a as [|x a IH]; simpl; [reflexivity|].
  rewrite IH, andb_assoc. reflexivity.
Qed.

Lemma replace_absent old new (s : string) :
  forallb_string (fun c => negb (Ascii.eqb c old)) s = true ->
  replace old new s = s.
Proof.
  induction s as [|c s IH]; simpl; [reflexivity|].
  intros Hall. apply andb_true_iff in Hall. destruct Hall as [Hc Hs].
  apply negb_true_iff in Hc. rewrite Hc, (IH Hs). reflexivity.
Qed.

Lemma replace_app old new (a b : string) :
  replace old new (a +:+ b) = replace old new a +:+ replace old new b.
Proof.
  induction a as [|c a IH]; [reflexivity|].
  cbn [append replace]. rewrite IH.
  destruct (Ascii.eqb c old); [rewrite append_assoc|]; reflexivity.
Qed.

Lemma esc_cons_plain (c : ascii) (s : string) :
  Ascii.eqb c dquote = false -> Ascii.eqb c dollar = false ->
  replace dollar (String backslash (String dollar EmptyString))
    (replace dquote (String backslash (String dquote EmptyString)) (String c s))
  = String c
      (replace dollar (String backslash (String dollar EmptyString))
         (replace dquote (String backslash (String dquote EmptyString)) s)).
Proof.
  intros Hdq Hdl. cbn [replace]. rewrite Hdq. cbn [replace]. rewrite Hdl.
  reflexivity.
Qed.

(** What the shell and the escaping make of a character that
    [shlex.quote] leaves bare. *)
Lemma is_safe_plain (c : ascii) :
  is_safe c = true ->
  sh_special c = false /\ Ascii.eqb c squote = false /\
  Ascii.eqb c dquote = false /\ Ascii.eqb c backslash = false /\
  Ascii.eqb c dollar = false /\ Ascii.eqb c backtick = false.
Proof.
  destruct c as [[] [] [] [] [] [] [] []]; vm_compute; intros Hs;
    first [discriminate Hs | repeat split].
Qed.

(** Single quotes: [shlex.quote] closes the quotes around every single
    quote of the text, and the shell reads the text back. *)
Lemma sh_single_quoted (t : string) :
  sh_word_from SingleQuoted
    (replace squote
       (String squote (String dquote (String squote (String dquote
          (String squote EmptyString))))) t
     +:+ String squote EmptyString)
  = Some t.
Proof.
  induction t as [|c t IH].
  - reflexivity.
  - cbn [replace]. destruct (Ascii.eqb c squote) eqn:Hc.
    + apply Ascii.eqb_eq in Hc. subst c.
      change (sh_word_from SingleQuoted
                (replace squote
                   (String squote (String dquote (String squote (String dquote
                      (String squote EmptyString))))) t
                 +:+ String squote EmptyString) = Some t) in IH.
      cbn. cbn in IH. rewrite IH. reflexivity.
    + cbn [append sh_word_from]. rewrite Hc, IH. reflexivity.
Qed.

Lemma sh_word_safe (s : string) :
  forallb_string is_safe s = true -> sh_word_from Unquoted s = Some s.
Proof.
  induction s as [|c s IH]; [reflexivity|].
  cbn [forallb_string]. intros Hall.
  apply andb_true_iff in Hall. destruct Hall as [Hc Hs].
  destruct (is_safe_plain c Hc) as [Hsp [Hsq [Hdq [Hbs _]]]].
  cbn [sh_word_from]. rewrite Hsq, Hdq, Hbs, Hsp, (IH Hs). reflexivity.
Qed.

(** The remote shell reads the word [shlex.quote] builds as the text that
    was quoted, whatever the text. *)
Lemma sh_word_quote (cmd : string) : sh_word (quote cmd) = Some cmd.
Proof.
  unfold quote, sh_word.
  destruct (String.eqb_spec cmd EmptyString) as [->|Hne]; [reflexivity|].
  destruct (forallb_string is_safe cmd) eqn:Hsafe.
  - apply sh_word_safe, Hsafe.
  - cbn [sh_word_from]. 
    change (Ascii.eqb squote squote) with true. cbv iota.
    apply sh_single_quoted.
Qed.

(** Double quotes: with the double quotes and the dollar signs of [t]
    escaped, the shell reads [t] back, provided [t] has no backslash and
    no backquote. *)
Lemma sh_double_quoted (t : string) :
  forallb_string dq_inert t = true ->
  sh_word_from DoubleQuoted
    (replace dollar (String backslash (String dollar EmptyString))
       (replace dquote (String backslash (String dquote EmptyString)) t)
     +:+ String dquote EmptyString)
  = Some t.
Proof.
  induction t as [|c t IH]; [reflexivity|].
  cbn [forallb_string]. intros Hall.
  apply andb_true_iff in Hall. destruct Hall as [Hc Ht].
  specialize (IH Ht).
  unfold dq_inert in Hc. apply negb_true_iff, orb_false_iff in Hc.
  destruct Hc as [Hbs Hbt].
  cbn [replace]. destruct (Ascii.eqb c dquote) eqn:Hdq.
  - apply Ascii.eqb_eq in Hdq. subst c. cbn. cbn in IH. rewrite IH. reflexivity.
  - cbn [replace]. destruct (Ascii.eqb c dollar) eqn:Hdl.
    + apply Ascii.eqb_eq in Hdl. subst c. cbn. cbn in IH. rewrite IH. reflexivity.
    + cbn [append sh_word_from]. rewrite Hdq, Hbs, Hdl, Hbt. cbn [orb].
      rewrite IH. reflexivity.
Qed.

Lemma sh_dquoted_prepare (cmd : string) :
  forallb_string dq_inert (quote cmd) = true ->
  sh_dquoted (_prepare_cmd_for_gcloud_ssh cmd) = Some (quote cmd).
Proof.
  intros Hq. unfold sh_dquoted, sh_word, _prepare_cmd_for_gcloud_ssh.
  cbn [sh_word_from].
  change (Ascii.eqb dquote squote) with false.
  change (Ascii.eqb dquote dquote) with true. cbv iota.
  apply sh_double_quoted, Hq.
Qed.

Lemma replace_inert old new (s : string) p :
  forallb_string p new = true ->
  forallb_string p s = true ->
  forallb_string p (replace old new s) = true.
Proof.
  intros Hnew. induction s as [|c s IH]; [reflexivity|].
  cbn [forallb_string replace]. intros Hall.
  apply andb_true_iff in Hall. destruct Hall as [Hc Hs].
  destruct (Ascii.eqb c old).
  - rewrite forallb_string_app, Hnew, (IH Hs). reflexivity.
  - cbn [forallb_string]. rewrite Hc, (IH Hs). reflexivity.
Qed.

Lemma quote_inert (cmd : string) :
  forallb_string dq_inert cmd = true ->
  forallb_string dq_inert (quote cmd) = true.
Proof.
  intros Hc. unfold quote.
  destruct (String.eqb cmd EmptyString); [reflexivity|].
  destruct (forallb_string is_safe cmd); [exact Hc|].
  cbn [forallb_string]. rewrite forallb_string_app.
  rewrite replace_inert; [reflexivity | reflexivity | exact Hc].
Qed.

(** The round trip holds for every command without a backslash and
    without a backquote: double quotes, dollar signs, single quotes and
    blanks all come back as they were. *)
Lemma shell_roundtrip_inert (cmd : string) :
  forallb_string dq_inert cmd = true ->
  shell_roundtrip cmd = Some cmd.
Proof.
  intros Hc. unfold shell_roundtrip.
  rewrite (sh_dquoted_prepare _ (quote_inert _ Hc)).
  apply sh_word_quote.
Qed.

(** C5.  The round trip through the shell fails on commands with a
    backquote or with a backslash before a backslash: inside the double
    quotes of [--command], the local shell starts a command substitution
    at the backquote that [_prepare_cmd_for_gcloud_ssh] left bare, and
    reads two backslashes as one. *)
Theorem C5_roundtrip_fails :
  _prepare_cmd_for_gcloud_ssh "echo `hostname`" = "'echo `hostname`'" /\
  sh_dquoted (_prepare_cmd_for_gcloud_ssh "echo `hostname`") = None /\
  shell_roundtrip "echo `hostname`" = None /\
  _prepare_cmd_for_gcloud_ssh "printf a\\b" = "'printf a\\b'" /\
  sh_dquoted (_prepare_cmd_for_gcloud_ssh "printf a\\b") = Some "'printf a\b'" /\
  shell_roundtrip "printf a\\b" = Some "printf a\b".
Proof. repeat split; reflexivity. Qed.

(** ** The remote command line *)

Lemma lit_option_map (c : ascii) (r : option string) :
  lit c r = option_map (String c) r.
Proof. destruct r; reflexivity. Qed.



(** ** The container command line *)

Lemma split_on_not_nil sep (s : string) : split_on sep s <> [].
Proof.
  destruct s as [|c s]; cbn [split_on]; [discriminate|].
  destruct (Ascii.eqb c sep); [discriminate|].
  destruct (split_on sep s); discriminate.
Qed.

Lemma split_on_app sep (a b : string) :
  split_on sep (a +:+ String sep b) = split_on sep a ++ split_on sep b.
Proof.
  induction a as [|c a IH]; cbn [append split_on].
  - rewrite Ascii.eqb_refl. reflexivity.
  - destruct (Ascii.eqb c sep).
    + rewrite IH. reflexivity.
    + rewrite IH. pose proof (split_on_not_nil sep a) as Hne.
      destruct (split_on sep a) as [|w ws]; [contradiction|]. reflexivity.
Qed.

Lemma words_app (a b : string) :
  words (a +:+ String space b) = words a ++ words b.
Proof. unfold words. rewrite split_on_app. apply List.filter_app. Qed.

Lemma split_on_token sep (t : string) :
  forallb_string (fun c => negb (Ascii.eqb c sep)) t = true ->
  split_on sep t = [t].
Proof.
  induction t as [|c t IH]; [reflexivity|].
  cbn [forallb_string split_on]. intros Hall.
  apply andb_true_iff in Hall. destruct Hall as [Hc Ht].
  apply negb_true_iff in Hc. rewrite Hc, (IH Ht). reflexivity.
Qed.

Lemma words_token (t : string) : is_token t = true -> words t = [t].
Proof.
  unfold is_token, words. intros Ht.
  apply andb_true_iff in Ht. destruct Ht as [Hne Hsp].
  rewrite (split_on_token _ _ Hsp). cbn [List.filter]. rewrite Hne. reflexivity.
Qed.

Lemma words_concat (l : list string) :
  words (String.concat " " l) = flat_map words l.
Proof.
  induction l as [|x l IH]; [reflexivity|].
  destruct l as [|y l].
  - cbn [String.concat flat_map]. rewrite app_nil_r. reflexivity.
  - change (String.concat " " (x :: y :: l))
      with (x +:+ String space (String.concat " " (y :: l))).
    rewrite words_app, IH. reflexivity.
Qed.

Lemma flat_map_map {A B C} (f : A -> B) (g : B -> list C) (l : list A) :
  flat_map g (map f l) = flat_map (fun x => g (f x)) l.
Proof.
  induction l as [|x l IH]; [reflexivity|].
  cbn [map flat_map]. rewrite IH. reflexivity.
Qed.

Lemma flat_map_ext_Forall {A B} (P : A -> Prop) (f g : A -> list B) (l : list A) :
  (forall x, P x -> f x = g x) -> Forall P l -> flat_map f l = flat_map g l.
Proof.
  intros Hfg Hall. induction Hall as [|x l Hx Hl IH]; [reflexivity|].
  cbn [flat_map]. rewrite (Hfg x Hx), IH. reflexivity.
Qed.

Lemma is_token_app (a b : string) :
  is_token a = true -> 
  forallb_string (fun c => negb (Ascii.eqb c space)) b = true ->
  is_token (a +:+ b) = true.
Proof.
  unfold is_token. intros Ha Hb.
  apply andb_true_iff in Ha. destruct Ha as [Hne Hsp].
  rewrite forallb_string_app, Hsp, Hb.
  destruct a; [discriminate Hne | reflexivity].
Qed.

Lemma is_token_no_space (a : string) :
  is_token a = true ->
  forallb_string (fun c => negb (Ascii.eqb c space)) a = true.
Proof. unfold is_token. intros Ha. apply andb_true_iff in Ha. tauto. Qed.

(** The fields of the line [docker_command] builds, up to and including
    the image, whatever its arguments hold. *)
Lemma docker_command_fields (cmd image : string) (detached_session : option string)
    (env : option (list string)) (volumes : option (list (string * string)))
    (extra_docker_flags : option (list string)) :
  exists head,
    docker_command cmd image detached_session env volumes extra_docker_flags
    = head +:+ " /bin/bash -c "
        +:+ _prepare_cmd_for_gcloud_ssh ("pushd /root && " +:+ cmd) /\
    words head
    = ["docker"; "run"; "--rm"; "--privileged"; "-u"; "root"; "--network=host"]
      ++ (if truthy detached_session
          then "-d" :: words ("--name=" +:+ default EmptyString detached_session)
          else [])
      ++ flat_map (fun e => "-e" :: words e) (default [] env)
      ++ flat_map (fun '(src, dst) => "-v" :: words (src +:+ ":" +:+ dst))
           (default [] volumes)
      ++ flat_map words (default [] extra_docker_flags)
      ++ words image.
Proof.
  exists
    ("docker run --rm --privileged -u root --network=host"
     +:+ String space
       ((if truthy detached_session
         then "-d --name=" +:+ default EmptyString detached_session
         else EmptyString)
        +:+ String space
          (String.concat " " (map (fun e => "-e " +:+ e) (default [] env))
           +:+ String space
             (String.concat " "
                (map (fun '(src, dst) => "-v " +:+ src +:+ ":" +:+ dst)
                   (default [] volumes))
              +:+ String space
                (String.concat " " (default [] extra_docker_flags)
                 +:+ String space image))))).
  split.
  - unfold docker_command.
    repeat (rewrite append_assoc || rewrite (append_cons space)).
    reflexivity.
  - rewrite !words_app, !words_concat, !flat_map_map.
    apply (f_equal2 (@app string)); [reflexivity|].
    apply (f_equal2 (@app string)).
    { destruct (truthy detached_session); [|reflexivity].
      apply (words_app "-d"). }
    apply (f_equal2 (@app string)).
    { apply flat_map_ext. intros e. apply (words_app "-e"). }
    apply (f_equal2 (@app string)); [|reflexivity].
    apply flat_map_ext. intros [src dst]. apply (words_app "-v").
Qed.

(** The escaped [pushd /root && CMD], written out: the blank makes
    [shlex.quote] put the text between single quotes for every [CMD]. *)
Lemma prepare_pushd_quoted (cmd : string) :
  _prepare_cmd_for_gcloud_ssh ("pushd /root && " +:+ cmd)
  = String squote
      (replace dollar (String backslash (String dollar EmptyString))
         (replace dquote (String backslash (String dquote EmptyString))
            (replace squote
               (String squote (String dquote (String squote (String dquote
                  (String squote EmptyString)))))
               ("pushd /root && " +:+ cmd)))
       +:+ String squote EmptyString).
Proof.
  unfold _prepare_cmd_for_gcloud_ssh, quote.
  change (String.eqb ("pushd /root && " +:+ cmd) EmptyString) with false.
  change (forallb_string is_safe ("pushd /root && " +:+ cmd)) with false.
  cbv iota.
  rewrite (esc_cons_plain squote _ eq_refl eq_refl), !replace_app.
  reflexivity.
Qed.

Lemma docker_head_fields (detached env volumes extra image : string) :
  words ("docker run --rm --privileged -u root --network=host " +:+ detached
           +:+ " " +:+ env +:+ " " +:+ volumes +:+ " " +:+ extra
           +:+ " " +:+ image)
  = ["docker"; "run"; "--rm"; "--privileged"; "-u"; "root"; "--network=host"]
    ++ words detached ++ words env ++ words volumes ++ words extra
    ++ words image.
Proof.
  change (words ("docker run --rm --privileged -u root --network=host"
                   +:+ String space
                     (detached +:+ String space
                        (env +:+ String space
                           (volumes +:+ String space
                              (extra +:+ String space image)))))
          = ["docker"; "run"; "--rm"; "--privileged"; "-u"; "root";
             "--network=host"]
            ++ words detached ++ words env ++ words volumes ++ words extra
            ++ words image).
  rewrite !words_app. reflexivity.
Qed.

Lemma flat_map_singletons (l : list string) : flat_map (fun f => [f]) l = l.
Proof. induction l as [|f l IH]; [reflexivity | cbn; rewrite IH; reflexivity]. Qed.

(** C9.  For every command, image, session, environment, volume mapping
    and extra flags, with no assumption on them, [docker_command] returns
    the text [docker run --rm --privileged -u root --network=host], then
    [-d --name=SESSION] exactly when a non-empty session name is given,
    one [-e VAR] per environment variable, one [-v SRC:DST] per volume
    entry in the order of the mapping, the extra flags and the image, these
    parts joined by single spaces (an absent part leaves its spaces), and
    then [/bin/bash -c] applied to the escaped command: [pushd /root && CMD]
    between single quotes, its single quotes closed and reopened around a
    double-quoted one, and a backslash put before each double quote and
    dollar sign.  For a command without backslash and backquote the two
    shells read that payload back as [pushd /root && CMD].  Split at
    spaces, the part before [/bin/bash] has the fields of the fixed flags,
    of the session part, [-e] and the fields of each variable, [-v] and
    the fields of each [SRC:DST], the fields of the extra flags and of the
    image; when names, paths, flags and image are themselves fields (not
    empty, no space) that is [-e VAR] and [-v SRC:DST] once per entry. *)
Theorem C9_docker_command_form (cmd image : string)
    (detached_session : option string)
    (env : option (list string)) (volumes : option (list (string * string)))
    (extra_docker_flags : option (list string)) :
  let detached :=
    match detached_session with
    | Some s =>
        if String.eqb s EmptyString then EmptyString else "-d --name=" +:+ s
    | None => EmptyString
    end in
  let head :=
    "docker run --rm --privileged -u root --network=host " +:+ detached
      +:+ " " +:+ String.concat " " (map (fun e => "-e " +:+ e) (default [] env))
      +:+ " "
      +:+ String.concat " "
            (map (fun '(src, dst) => "-v " +:+ src +:+ ":" +:+ dst)
               (default [] volumes))
      +:+ " " +:+ String.concat " " (default [] extra_docker_flags)
      +:+ " " +:+ image in
  let payload :=
    String squote
      (replace dollar (String backslash (String dollar EmptyString))
         (replace dquote (String backslash (String dquote EmptyString))
            (replace squote
               (String squote (String dquote (String squote (String dquote
                  (String squote EmptyString)))))
               ("pushd /root && " +:+ cmd)))
       +:+ String squote EmptyString) in
  docker_command cmd image detached_session env volumes extra_docker_flags
  = head +:+ " /bin/bash -c " +:+ payload /\
  (forallb_string dq_inert cmd = true ->
   match sh_dquoted payload with
   | Some v => sh_word v
   | None => None
   end = Some ("pushd /root && " +:+ cmd)) /\
  words head
  = ["docker"; "run"; "--rm"; "--privileged"; "-u"; "root"; "--network=host"]
    ++ match detached_session with
       | Some s =>
           if String.eqb s EmptyString then []
           else "-d" :: words ("--name=" +:+ s)
       | None => []
       end
    ++ flat_map (fun e => "-e" :: words e) (default [] env)
    ++ flat_map (fun '(src, dst) => "-v" :: words (src +:+ ":" +:+ dst))
         (default [] volumes)
    ++ flat_map words (default [] extra_docker_flags)
    ++ words image /\
  (is_token image = true ->
   (forall s, detached_session = Some s -> s <> EmptyString -> is_token s = true) ->
   Forall (fun e => is_token e = true) (default [] env) ->
   Forall (fun v => is_token (fst v) = true /\ is_token (snd v) = true)
     (default [] volumes) ->
   Forall (fun f => is_token f = true) (default [] extra_docker_flags) ->
   words head
   = ["docker"; "run"; "--rm"; "--privileged"; "-u"; "root"; "--network=host"]
     ++ match detached_session with
        | Some s =>
            if String.eqb s EmptyString then [] else ["-d"; "--name=" +:+ s]
        | None => []
        end
     ++ flat_map (fun e => ["-e"; e]) (default [] env)
     ++ flat_map (fun v => ["-v"; fst v +:+ ":" +:+ snd v]) (default [] volumes)
     ++ default [] extra_docker_flags
     ++ [image]).
Proof.
  intros detached head payload.
  assert (words head
          = ["docker"; "run"; "--rm"; "--privileged"; "-u"; "root";
             "--network=host"]
            ++ match detached_session with
               | Some s =>
                   if String.eqb s EmptyString then []
                   else "-d" :: words ("--name=" +:+ s)
               | None => []
               end
            ++ flat_map (fun e => "-e" :: words e) (default [] env)
            ++ flat_map (fun '(src, dst) => "-v" :: words (src +:+ ":" +:+ dst))
                 (default [] volumes)
            ++ flat_map words (default [] extra_docker_flags)
            ++ words image) as Hfields.
  { unfold head. rewrite docker_head_fields, !words_concat, !flat_map_map.
    apply (f_equal2 (@app string)); [reflexivity|].
    apply (f_equal2 (@app string)).
    { unfold detached. destruct detached_session as [s|]; [|reflexivity].
      destruct (String.eqb s EmptyString); [reflexivity|].
      apply (words_app "-d"). }
    apply (f_equal2 (@app string)).
    { apply flat_map_ext. intros e. apply (words_app "-e"). }
    apply (f_equal2 (@app string)); [|reflexivity].
    apply flat_map_ext. intros [src dst]. apply (words_app "-v"). }
  split; [|split; [|split; [exact Hfields|]]].
  - unfold docker_command. cbv zeta. rewrite prepare_pushd_quoted.
    fold payload. unfold head.
    replace (if truthy detached_session
             then "-d --name=" +:+ default EmptyString detached_session
             else EmptyString) with detached.
    + rewrite !append_assoc. reflexivity.
    + unfold detached. destruct detached_session as [s|]; [|reflexivity].
      cbn [truthy]. destruct (String.eqb s EmptyString); reflexivity.
  - intros Hcmd. unfold payload. rewrite <- prepare_pushd_quoted.
    apply (shell_roundtrip_inert ("pushd /root && " +:+ cmd)).
    rewrite forallb_string_app, Hcmd. reflexivity.
  - intros Himage Hsession Henv Hvol Hextra. rewrite Hfields.
    apply (f_equal2 (@app string)); [reflexivity|].
    apply (f_equal2 (@app string)).
    { destruct detached_session as [s|]; [|reflexivity].
      destruct (String.eqb_spec s EmptyString) as [->|Hne]; [reflexivity|].
      rewrite (words_token ("--name=" +:+ s)); [reflexivity|].
      apply (is_token_app "--name=" s eq_refl).
      apply is_token_no_space, (Hsession s eq_refl Hne). }
    apply (f_equal2 (@app string)).
    { apply (flat_map_ext_Forall (fun e => is_token e = true)); [|exact Henv].
      intros e He. rewrite (words_token e He). reflexivity. }
    apply (f_equal2 (@app string)).
    { apply (flat_map_ext_Forall
               (fun v => is_token (fst v) = true /\ is_token (snd v) = true));
        [|exact Hvol].
      intros [src dst] [Hs Hd]. cbn [fst snd] in *.
      rewrite (words_token (src +:+ ":" +:+ dst)); [reflexivity|].
      apply is_token_app; [exact Hs|].
      cbn [append forallb_string]. apply is_token_no_space, Hd. }
    apply (f_equal2 (@app string)); [|apply words_token, Himage].
    rewrite <- (flat_map_singletons (default [] extra_docker_flags)) at 2.
    apply (flat_map_ext_Forall (fun f => is_token f = true)); [|exact Hextra].
    intros f Hf. apply words_token, Hf.
Qed.

Lemma C9_docker_command_form_witness :
  docker_command "echo $HOME" "gcr.io/p/img:tag" (Some "sess")
    (Some ["HOME"; "A=b c"]) (Some [("/data", "/mnt/data")])
    (Some ["--ipc=host"])
  = "docker run --rm --privileged -u root --network=host -d --name=sess "
      +:+ "-e HOME -e A=b c -v /data:/mnt/data --ipc=host gcr.io/p/img:tag"
      +:+ " /bin/bash -c 'pushd /root && echo \$HOME'" /\
  words ("docker run --rm --privileged -u root --network=host -d --name=sess "
           +:+ "-e HOME -e A=b c -v /data:/mnt/data --ipc=host gcr.io/p/img:tag")
  = ["docker"; "run"; "--rm"; "--privileged"; "-u"; "root"; "--network=host";
     "-d"; "--name=sess"; "-e"; "HOME"; "-e"; "A=b"; "c";
     "-v"; "/data:/mnt/data"; "--ipc=host"; "gcr.io/p/img:tag"].
Proof.
  destruct (C9_docker_command_form "echo $HOME" "gcr.io/p/img:tag" (Some "sess")
              (Some ["HOME"; "A=b c"]) (Some [("/data", "/mnt/data")])
              (Some ["--ipc=host"])) as [Heq [_ [Hfields _]]].
  split; [exact Heq | exact Hfields].
Defined.

(** * Further properties of job.py *)

(** ** Keyword arguments of the subprocess *)

Lemma setdefault_lookup (k k' : string) (v : Nested) (m : gmap string Nested) :
  setdefault k v m !! k' =
  if decide (k = k')
  then Some (match m !! k with Some u => u | None => v end)
  else m !! k'.
Proof.
  unfold setdefault. destruct (m !! k) as [u|] eqn:Hk.
  - destruct (decide (k = k')) as [<-|_]; [exact Hk | reflexivity].
  - rewrite lookup_insert. destruct (decide (k = k')); reflexivity.
Qed.

Lemma setdefault_subseteq (k : string) (v : Nested) (m : gmap string Nested) :
  m ⊆ setdefault k v m.
Proof.
  unfold setdefault. destruct (m !! k) eqn:Hk; [reflexivity|].
  apply insert_subseteq, Hk.
Qed.

Lemma setdefault_present (k : string) (v : Nested) (m : gmap string Nested) :
  is_Some (m !! k) -> setdefault k v m = m.
Proof. unfold setdefault. intros [u ->]. reflexivity. Qed.

Lemma is_absent_setdefault (k k' : string) (v : Nested) (m : gmap string Nested) :
  k <> k' -> is_absent k' (setdefault k v m) = is_absent k' m.
Proof.
  intros Hne. unfold is_absent. rewrite setdefault_lookup.
  destruct (decide (k = k')); [contradiction | reflexivity].
Qed.

(** X1.  [_prepare_subprocess_kwargs] never overrides the caller: every
    keyword argument passed in is in the result with the value it had. *)
Theorem X1_kwargs_kept (kwargs : gmap string Nested) :
  kwargs ⊆ _prepare_subprocess_kwargs kwargs.
Proof.
  unfold _prepare_subprocess_kwargs.
  etrans; [apply (setdefault_subseteq "text" (NBool true))|].
  etrans; [apply (setdefault_subseteq "check" (NBool true))|].
  apply setdefault_subseteq.
Qed.

Ltac decide_keys :=
  repeat (case_decide; try discriminate; try congruence).

Lemma prepare_kwargs_present (kwargs : gmap string Nested) :
  is_Some (_prepare_subprocess_kwargs kwargs !! "text") /\
  is_Some (_prepare_subprocess_kwargs kwargs !! "check") /\
  is_Some (_prepare_subprocess_kwargs kwargs !! "capture_output").
Proof.
  unfold _prepare_subprocess_kwargs. cbv zeta.
  rewrite !setdefault_lookup.
  repeat split; decide_keys; eauto.
Qed.

(** X2.  The three defaults: [text] and [check] are [True] unless the
    caller set them, and [capture_output], unless the caller set it, is
    [True] exactly when the caller passed neither [stdout] nor [stderr]. *)
Theorem X2_kwargs_defaults (kwargs : gmap string Nested) :
  _prepare_subprocess_kwargs kwargs !! "text"
    = Some (match kwargs !! "text" with Some v => v | None => NBool true end) /\
  _prepare_subprocess_kwargs kwargs !! "check"
    = Some (match kwargs !! "check" with Some v => v | None => NBool true end) /\
  _prepare_subprocess_kwargs kwargs !! "capture_output"
    = Some (match kwargs !! "capture_output" with
            | Some v => v
            | None =>
                NBool (is_absent "stdout" kwargs && is_absent "stderr" kwargs)
            end).
Proof.
  unfold _prepare_subprocess_kwargs. cbv zeta.
  rewrite !setdefault_lookup.
  rewrite !is_absent_setdefault by discriminate.
  repeat split; decide_keys.
Qed.

(** X3.  No other key is added: the keys of the result are those of the
    caller together with [text], [check] and [capture_output]. *)
Theorem X3_kwargs_keys (kwargs : gmap string Nested) :
  dom (_prepare_subprocess_kwargs kwargs)
  = dom kwargs ∪ {["text"; "check"; "capture_output"]}.
Proof.
  apply set_eq. intros k.
  rewrite !elem_of_union, !elem_of_singleton, !elem_of_dom.
  unfold _prepare_subprocess_kwargs. cbv zeta. rewrite !setdefault_lookup.
  split.
  - intros Hk.
    destruct (decide ("capture_output" = k)) as [<-|H1]; [tauto|].
    destruct (decide ("check" = k)) as [<-|H2]; [tauto|].
    destruct (decide ("text" = k)) as [<-|H3]; [tauto|].
    left. exact Hk.
  - intros Hk.
    destruct (decide ("capture_output" = k)) as [<-|H1]; [eauto|].
    destruct (decide ("check" = k)) as [<-|H2]; [eauto|].
    destruct (decide ("text" = k)) as [<-|H3]; [eauto|].
    destruct Hk as [Hk|[[Hk|Hk]|Hk]]; [exact Hk | congruence ..].
Qed.

(** X4.  Preparing keyword arguments that were already prepared changes
    nothing. *)
Theorem X4_kwargs_idempotent (kwargs : gmap string Nested) :
  _prepare_subprocess_kwargs (_prepare_subprocess_kwargs kwargs)
  = _prepare_subprocess_kwargs kwargs.
Proof.
  destruct (prepare_kwargs_present kwargs) as [Ht [Hc Ho]].
  set (m := _prepare_subprocess_kwargs kwargs) in *.
  unfold _prepare_subprocess_kwargs at 1. cbv zeta.
  rewrite (setdefault_present "text" _ m Ht).
  rewrite (setdefault_present "check" _ m Hc).
  rewrite (setdefault_present "capture_output" _ m Ho).
  reflexivity.
Qed.

(** ** Annotations *)

Lemma base_annotation_keys (o : option string) :
  dom (if truthy o
       then match o with
            | Some q => <[queue_name_key := q]> (∅ : gmap string string)
            | None => ∅
            end
       else ∅)
  ⊆ ({[queue_name_key]} : gset string).
Proof.
  destruct (truthy o); [|rewrite dom_empty_L; apply empty_subseteq].
  destruct o as [q|]; [|rewrite dom_empty_L; apply empty_subseteq].
  rewrite dom_insert_L, dom_empty_L, union_empty_r_L. reflexivity.
Qed.

(** X5.  The documents carry no annotation of their own invention: the
    base document has no key but the queue name, the [TPUGKEJob] document
    has the keys of the base document and the exclusive topology key and
    no other; the replicated jobs are those the builder returned, in its
    order, and the document is named after the job. *)
Theorem X5_annotation_keys {W} (self : GKEJobObject W) (w : W) jobs w' :
  _builder self w = (Return jobs, w') ->
  exists base tpu,
    GKEJob._build_jobset self w = (Return base, w') /\
    TPUGKEJob._build_jobset self w = (Return tpu, w') /\
    dom (annotations (metadata base)) ⊆ ({[queue_name_key]} : gset string) /\
    dom (annotations (metadata tpu))
      = {[exclusive_topology_key]} ∪ dom (annotations (metadata base)) /\
    replicatedJobs (spec base) = jobs /\
    replicatedJobs (spec tpu) = jobs /\
    md_name (metadata base) = name (config self) /\
    md_name (metadata tpu) = name (config self).
Proof.
  intros Hb.
  pose proof (build_jobset_returns _ _ _ _ Hb) as Hbase.
  pose proof (tpu_build_jobset_returns _ _ _ _ Hbase) as Htpu.
  eexists _, _. split; [exact Hbase|]. split; [exact Htpu|].
  cbn [annotations metadata md_name spec replicatedJobs].
  split; [apply base_annotation_keys|].
  split; [apply dom_insert_L|].
  repeat split.
Qed.

Lemma X5_annotation_keys_witness :
  exists base tpu,
    GKEJob._build_jobset
      (sample_job (sample_config "job2" 1 (Some docker_bundler_cfg) (Some "q1")))
      empty_cluster = (Return base, empty_cluster) /\
    TPUGKEJob._build_jobset
      (sample_job (sample_config "job2" 1 (Some docker_bundler_cfg) (Some "q1")))
      empty_cluster = (Return tpu, empty_cluster) /\
    dom (annotations (metadata tpu))
      = {[exclusive_topology_key]} ∪ dom (annotations (metadata base)).
Proof.
  destruct (X5_annotation_keys
              (sample_job (sample_config "job2" 1 (Some docker_bundler_cfg) (Some "q1")))
              empty_cluster [NDict [("name", NStr "job2")]] empty_cluster eq_refl)
    as [base [tpu [Hb [Ht [_ [Hd _]]]]]].
  exists base, tpu. auto.
Defined.

(** ** Construction, continued *)

Lemma init_supported {W} {P : Platform W} (cfg : Config) (w : W) c :
  getattr_inner (bundler cfg) = Some c ->
  issubclass (klass c) BaseDockerBundler = true ->
  GKEJob.__init__ cfg w =
    (the_bundler <- Job__init__ cfg ;;
     the_builder <-
       builder_instantiate
         {| b_klass := b_klass (builder cfg);
            b_name := Some (name cfg);
            b_command := Some (command cfg);
            b_accelerator := Some (accelerator cfg);
            b_project := Some (project cfg);
            b_env_vars := env_vars cfg;
            b_service_account := service_account cfg;
            b_enable_pre_provisioner := enable_pre_provisioner cfg;
            b_output_dir := output_dir cfg |}
         the_bundler ;;
     ret (mkGKEJobObject cfg the_bundler the_builder)) w.
Proof.
  intros Hc Hk. unfold GKEJob.__init__. rewrite Hc, Hk. reflexivity.
Qed.

(** X6.  A bundler configuration whose [inner] attribute is [None] is
    turned down, whatever its own class, a docker class included. *)
Theorem X6_inner_None_rejected {W} {P : Platform W} (cfg : Config) (w : W) k :
  bundler cfg = Some (mkBundlerConfig k (Some None)) ->
  exists msg,
    GKEJob.__init__ cfg w = (Raise (Exception "NotImplementedError" msg), w).
Proof.
  intros Hb. eexists. apply init_unsupported.
  left. rewrite Hb. reflexivity.
Qed.

Lemma X6_inner_None_rejected_witness :
  exists msg,
    GKEJob.__init__ (P := cluster_platform)
      (sample_config "job1" 3
         (Some (mkBundlerConfig (klass docker_bundler_cfg) (Some None))) None)
      empty_cluster
    = (Raise (Exception "NotImplementedError" msg), empty_cluster).
Proof.
  apply (X6_inner_None_rejected (P := cluster_platform)
           (sample_config "job1" 3
              (Some (mkBundlerConfig (klass docker_bundler_cfg) (Some None))) None)
           empty_cluster (klass docker_bundler_cfg)).
  reflexivity.
Defined.

(** X7.  Of a bundler configuration with an [inner] one, only the class
    of the inner configuration is looked at, and only one level down: when
    that class is not docker-based the job is turned down, even if the
    outer class is docker-based or the inner configuration itself wraps a
    docker-based one. *)
Theorem X7_inner_class_decides {W} {P : Platform W} (cfg : Config) (w : W)
    k_outer k_inner i_inner :
  bundler cfg
    = Some (mkBundlerConfig k_outer (Some (Some (mkBundlerConfig k_inner i_inner)))) ->
  issubclass k_inner BaseDockerBundler = false ->
  exists msg,
    GKEJob.__init__ cfg w = (Raise (Exception "NotImplementedError" msg), w).
Proof.
  intros Hb Hk. eexists. apply init_unsupported.
  right. rewrite Hb. eexists. split; [reflexivity | exact Hk].
Qed.

Lemma X7_inner_class_decides_witness :
  exists msg,
    GKEJob.__init__ (P := cluster_platform)
      (sample_config "job1" 3
         (Some (mkBundlerConfig (klass docker_bundler_cfg)
                  (Some (Some wrapped_bundler_cfg)))) None)
      empty_cluster
    = (Raise (Exception "NotImplementedError" msg), empty_cluster).
Proof.
  apply (X7_inner_class_decides (P := cluster_platform)
           (sample_config "job1" 3
              (Some (mkBundlerConfig (klass docker_bundler_cfg)
                       (Some (Some wrapped_bundler_cfg)))) None)
           empty_cluster (klass docker_bundler_cfg)
           (klass wrapped_bundler_cfg) (inner wrapped_bundler_cfg)).
  - reflexivity.
  - reflexivity.
Defined.

(** X8.  Past the bundler check, [GKEJob.__init__] runs the base
    constructor and then instantiates the builder: an exception of the
    base constructor propagates with the builder never instantiated, an
    exception of the instantiation propagates, and a successful
    construction gives an object with the configuration passed in and the
    bundler of the base constructor. *)
Theorem X8_init_sequence {W} {P : Platform W} (cfg : Config) (w : W) c :
  getattr_inner (bundler cfg) = Some c ->
  issubclass (klass c) BaseDockerBundler = true ->
  (forall e w1,
     Job__init__ cfg w = (Raise e, w1) ->
     GKEJob.__init__ cfg w = (Raise e, w1)) /\
  (forall b w1 e w2,
     Job__init__ cfg w = (Return b, w1) ->
     builder_instantiate
       {| b_klass := b_klass (builder cfg);
          b_name := Some (name cfg);
          b_command := Some (command cfg);
          b_accelerator := Some (accelerator cfg);
          b_project := Some (project cfg);
          b_env_vars := env_vars cfg;
          b_service_account := service_account cfg;
          b_enable_pre_provisioner := enable_pre_provisioner cfg;
          b_output_dir := output_dir cfg |} b w1 = (Raise e, w2) ->
     GKEJob.__init__ cfg w = (Raise e, w2)) /\
  (forall obj w2,
     GKEJob.__init__ cfg w = (Return obj, w2) ->
     config obj = cfg /\
     exists w1, Job__init__ cfg w = (Return (_bundler obj), w1)).
Proof.
  intros Hc Hk. rewrite (init_supported cfg w c Hc Hk).
  unfold bind, ret. split; [|split].
  - intros e w1 Hj. rewrite Hj. reflexivity.
  - intros b w1 e w2 Hj Hi. rewrite Hj, Hi. reflexivity.
  - intros obj w2.
    destruct (Job__init__ cfg w) as [[b|e] w1]; [|discriminate].
    destruct (builder_instantiate _ b w1) as [[bld|e] w3]; [|discriminate].
    intros Heq. inversion Heq; subst. cbn [config _bundler]. eauto.
Qed.

Lemma X8_init_sequence_witness :
  exists obj,
    GKEJob.__init__ (P := cluster_platform)
      (sample_config "job1" 3 (Some wrapped_bundler_cfg) None) empty_cluster
    = (Return obj, empty_cluster) /\
    config obj = sample_config "job1" 3 (Some wrapped_bundler_cfg) None.
Proof.
  destruct (X8_init_sequence (P := cluster_platform)
              (sample_config "job1" 3 (Some wrapped_bundler_cfg) None)
              empty_cluster docker_bundler_cfg eq_refl eq_refl)
    as [_ [_ Hok]].
  eexists. split; [reflexivity|].
  apply (Hok _ empty_cluster eq_refl).
Defined.

(** ** Submission, continued *)

(** X9.  Nothing is submitted for a job that cannot be built, and nothing
    is swallowed: an exception of the builder comes out of [_execute] of
    each of the three classes in the world the builder left, and an
    exception of the creation request comes out unchanged. *)
Theorem X9_execute_propagates {W} {P : Platform W} (self : GKEJobObject W) (w : W) :
  (forall e w1,
     _builder self w = (Raise e, w1) ->
     GKEJob._execute GKEJob._build_jobset self w = (Raise e, w1) /\
     TPUGKEJob._execute self w = (Raise e, w1) /\
     GPUGKEJob._execute self w = (Raise e, w1)) /\
  (forall build doc w1 e w2,
     build self w = (Return doc, w1) ->
     create_namespaced_custom_object (namespace (config self))
       {| apiVersion :=
            group custom_jobset_kwargs +:+ "/" +:+ version custom_jobset_kwargs;
          kind := "JobSet";
          body := doc |}
       custom_jobset_kwargs w1 = (Raise e, w2) ->
     GKEJob._execute build self w = (Raise e, w2)).
Proof.
  split.
  - intros e w1 Hb.
    assert (GKEJob._build_jobset self w = (Raise e, w1)) as Hbase
      by (apply build_jobset_raises, Hb).
    assert (TPUGKEJob._build_jobset self w = (Raise e, w1)) as Htpu
      by (unfold TPUGKEJob._build_jobset, bind; rewrite Hbase; reflexivity).
    unfold TPUGKEJob._execute, GPUGKEJob._execute, GPUGKEJob._build_jobset,
      GKEJob._execute, bind.
    rewrite Hbase, Htpu. repeat split.
  - intros build doc w1 e w2 Hb Hc.
    unfold GKEJob._execute, bind. rewrite Hb, Hc. reflexivity.
Qed.

(** ** Configuration from flags *)

Lemma from_flags_inv {W} {F : Flags W} (cls_builder : string) (fv : FlagValues)
    (w : W) cfg' w' :
  GKEJob.from_flags cls_builder fv w = (Return cfg', w') ->
  exists cfg w1 sa w2 b,
    super_from_flags fv w = (Return cfg, w1) /\
    (if truthy (service_account cfg) then ret (service_account cfg)
     else gcp_settings "k8s_service_account" "default" fv) w1 = (Return sa, w2) /\
    builder_from_flags cls_builder fv w2 = (Return b, w') /\
    cfg' =
      {| name := name cfg; command := command cfg; max_tries := max_tries cfg;
         bundler := bundler cfg; project := project cfg; zone := zone cfg;
         env_id := env_id cfg; service_account := sa; builder := b;
         accelerator :=
           {| instance_type := fv_instance_type fv;
              num_replicas := fv_num_replicas fv |};
         env_vars := env_vars cfg; namespace := namespace cfg;
         enable_pre_provisioner := enable_pre_provisioner cfg;
         queue := queue cfg; output_dir := output_dir cfg |}.
Proof.
  unfold GKEJob.from_flags, bind.
  destruct (super_from_flags fv w) as [[cfg|e] w1]; [|discriminate].
  destruct ((if truthy (service_account cfg) then ret (service_account cfg)
             else gcp_settings "k8s_service_account" "default" fv) w1)
    as [[sa|e] w2] eqn:Hsa; [|discriminate].
  destruct (builder_from_flags cls_builder fv w2) as [[b|e] w3] eqn:Hb;
    [|discriminate].
  unfold ret. intros Heq. inversion Heq; subst.
  exists cfg, w1, sa, w2, b. repeat split; assumption.
Qed.

(** X10.  [from_flags] keeps a service account that is set and does not
    consult the settings then; when it is unset or empty, the service
    account is what [gcp_settings] returns for [k8s_service_account], and
    an exception of the settings propagates. *)
Theorem X10_service_account_fallback {W} {F : Flags W} (cls_builder : string)
    (fv : FlagValues) (w : W) cfg w1 :
  super_from_flags fv w = (Return cfg, w1) ->
  (truthy (service_account cfg) = true ->
   forall b w2,
     builder_from_flags cls_builder fv w1 = (Return b, w2) ->
     exists cfg',
       GKEJob.from_flags cls_builder fv w = (Return cfg', w2) /\
       service_account cfg' = service_account cfg) /\
  (truthy (service_account cfg) = false ->
   (forall v w1' b w2,
      gcp_settings "k8s_service_account" "default" fv w1 = (Return v, w1') ->
      builder_from_flags cls_builder fv w1' = (Return b, w2) ->
      exists cfg',
        GKEJob.from_flags cls_builder fv w = (Return cfg', w2) /\
        service_account cfg' = v) /\
   (forall e w1',
      gcp_settings "k8s_service_account" "default" fv w1 = (Raise e, w1') ->
      GKEJob.from_flags cls_builder fv w = (Raise e, w1'))).
Proof.
  intros Hs. unfold GKEJob.from_flags, bind. rewrite Hs. split.
  - intros Ht b w2 Hb. rewrite Ht. unfold ret. rewrite Hb.
    eexists. split; reflexivity.
  - intros Ht. rewrite Ht. split.
    + intros v w1' b w2 Hg Hb. rewrite Hg, Hb. eexists. split; reflexivity.
    + intros e w1' Hg. rewrite Hg. reflexivity.
Qed.

Lemma X10_service_account_fallback_witness :
  exists cfg',
    GKEJob.from_flags
      (F := sample_flags (sample_config "job1" 3 (Some docker_bundler_cfg) None)
              (Some "k8s-sa"))
      "TPUReplicatedJob"
      {| fv_instance_type := Some "tpu-v5litepod-16"; fv_num_replicas := 2 |}
      empty_cluster
    = (Return cfg', empty_cluster) /\
    service_account cfg' = Some "k8s-sa".
Proof.
  destruct (X10_service_account_fallback
              (F := sample_flags
                      (sample_config "job1" 3 (Some docker_bundler_cfg) None)
                      (Some "k8s-sa"))
              "TPUReplicatedJob"
              {| fv_instance_type := Some "tpu-v5litepod-16"; fv_num_replicas := 2 |}
              empty_cluster
              (sample_config "job1" 3 (Some docker_bundler_cfg) None)
              empty_cluster eq_refl) as [_ Hunset].
  destruct (Hunset eq_refl) as [Hok _].
  exact (Hok (Some "k8s-sa") empty_cluster _ empty_cluster eq_refl eq_refl).
Defined.

(** X11.  A configuration [from_flags] returns differs from the one the
    inherited [from_flags] produced in the service account, the builder and
    the accelerator only: the accelerator is the instance type and the
    number of replicas of the flags, every other field is as inherited. *)
Theorem X11_from_flags_fields {W} {F : Flags W} (cls_builder : string)
    (fv : FlagValues) (w : W) cfg' w' :
  GKEJob.from_flags cls_builder fv w = (Return cfg', w') ->
  exists cfg w1,
    super_from_flags fv w = (Return cfg, w1) /\
    name cfg' = name cfg /\ command cfg' = command cfg /\
    max_tries cfg' = max_tries cfg /\ bundler cfg' = bundler cfg /\
    project cfg' = project cfg /\ zone cfg' = zone cfg /\
    env_id cfg' = env_id cfg /\ env_vars cfg' = env_vars cfg /\
    namespace cfg' = namespace cfg /\
    enable_pre_provisioner cfg' = enable_pre_provisioner cfg /\
    queue cfg' = queue cfg /\ output_dir cfg' = output_dir cfg /\
    instance_type (accelerator cfg') = fv_instance_type fv /\
    num_replicas (accelerator cfg') = fv_num_replicas fv.
Proof.
  intros Hf. apply from_flags_inv in Hf.
  destruct Hf as [cfg [w1 [sa [w2 [b [Hs [_ [_ ->]]]]]]]].
  exists cfg, w1. split; [exact Hs|]. cbn. repeat split.
Qed.

Lemma X11_from_flags_fields_witness :
  exists cfg',
    GKEJob.from_flags
      (F := sample_flags
              (sample_config "job1" 3 (Some docker_bundler_cfg) (Some "q1"))
              None)
      "A3ReplicatedJob"
      {| fv_instance_type := Some "gpu-a3-highgpu-8g-256"; fv_num_replicas := 4 |}
      empty_cluster
    = (Return cfg', empty_cluster) /\
    queue cfg' = Some "q1" /\
    num_replicas (accelerator cfg') = 4%Z.
Proof.
  eexists. split; [reflexivity|].
  destruct (X11_from_flags_fields
              (F := sample_flags
                      (sample_config "job1" 3 (Some docker_bundler_cfg) (Some "q1"))
                      None)
              "A3ReplicatedJob"
              {| fv_instance_type := Some "gpu-a3-highgpu-8g-256";
                 fv_num_replicas := 4 |}
              empty_cluster _ empty_cluster eq_refl)
    as [cfg [w1 [Hs [_ [_ [_ [_ [_ [_ [_ [_ [_ [_ [Hq [_ [_ Hn]]]]]]]]]]]]]]]].
  inversion Hs; subst. split; [exact Hq | exact Hn].
Defined.

(** ** Escaping, continued *)

Lemma unescape_cons2 (c b d : ascii) (r : string) :
  unescape c (String b (String d r))
  = if Ascii.eqb b backslash && Ascii.eqb d c
    then String d (unescape c r)
    else String b (unescape c (String d r)).
Proof. reflexivity. Qed.

Lemma replace_head (c : ascii) (s : string) d r :
  Ascii.eqb c backslash = false ->
  replace c (String backslash (String c EmptyString)) s = String d r ->
  Ascii.eqb d c = false.
Proof.
  intros Hc. destruct s as [|x s]; cbn [replace]; [discriminate|].
  destruct (Ascii.eqb x c) eqn:Hx; cbn [append]; intros Heq;
    inversion Heq; subst.
  - rewrite Ascii.eqb_sym. exact Hc.
  - exact Hx.
Qed.

(** The escaping of one character can be undone. *)
Lemma unescape_replace (c : ascii) (s : string) :
  Ascii.eqb c backslash = false ->
  unescape c (replace c (String backslash (String c EmptyString)) s) = s.
Proof.
  intros Hc. induction s as [|x s IH]; [reflexivity|].
  cbn [replace]. destruct (Ascii.eqb x c) eqn:Hx.
  - apply Ascii.eqb_eq in Hx. subst x. cbn [append].
    rewrite unescape_cons2, !Ascii.eqb_refl. cbn [andb].
    rewrite IH. reflexivity.
  - destruct (replace c (String backslash (String c EmptyString)) s)
      as [|d r] eqn:HR.
    + cbn in IH. subst s. reflexivity.
    + rewrite unescape_cons2, (replace_head c s d r Hc HR), andb_false_r.
      rewrite IH. reflexivity.
Qed.

(** X12.  The escaping loses nothing: dropping the backslashes it put in
    front of dollar signs and double quotes and reading the result as a
    shell word gives the command back, so [_prepare_cmd_for_gcloud_ssh]
    never maps two commands to the same text. *)
Theorem X12_prepare_injective :
  (forall cmd,
     sh_word (unescape dquote (unescape dollar (_prepare_cmd_for_gcloud_ssh cmd)))
     = Some cmd) /\
  (forall a b,
     _prepare_cmd_for_gcloud_ssh a = _prepare_cmd_for_gcloud_ssh b -> a = b).
Proof.
  assert (forall cmd,
            sh_word (unescape dquote
                       (unescape dollar (_prepare_cmd_for_gcloud_ssh cmd)))
            = Some cmd) as Hdec.
  { intros cmd. unfold _prepare_cmd_for_gcloud_ssh.
    rewrite !unescape_replace by reflexivity. apply sh_word_quote. }
  split; [exact Hdec|].
  intros a b Heq. pose proof (Hdec a) as Ha. rewrite Heq, Hdec in Ha.
  inversion Ha. reflexivity.
Qed.

Lemma dq_read_plain (c : ascii) (x : string) :
  Ascii.eqb c dquote = false -> Ascii.eqb c backslash = false ->
  Ascii.eqb c dollar = false -> Ascii.eqb c backtick = false ->
  sh_word_from DoubleQuoted (String c x) = lit c (sh_word_from DoubleQuoted x).
Proof.
  intros Hdq Hbs Hdl Hbt. cbn [sh_word_from].
  rewrite Hdq, Hbs, Hdl, Hbt. reflexivity.
Qed.

Lemma dq_read_backslash (d : ascii) (x : string) :
  dq_escapable d = false -> Ascii.eqb d newline = false ->
  sh_word_from DoubleQuoted (String backslash (String d x))
  = lit backslash (lit d (sh_word_from DoubleQuoted x)).
Proof.
  intros He Hn.
  change (sh_word_from DoubleQuoted (String backslash (String d x)))
    with (if dq_escapable d then lit d (sh_word_from DoubleQuoted x)
          else if Ascii.eqb d newline then sh_word_from DoubleQuoted x
          else lit backslash (lit d (sh_word_from DoubleQuoted x))).
  rewrite He, Hn. reflexivity.
Qed.

Lemma dq_escapable_false (d : ascii) :
  dq_escapable d = false ->
  Ascii.eqb d dollar = false /\ Ascii.eqb d backtick = false /\
  Ascii.eqb d dquote = false /\ Ascii.eqb d backslash = false.
Proof.
  unfold dq_escapable. intros He.
  apply orb_false_iff in He. destruct He as [He Hbs].
  apply orb_false_iff in He. destruct He as [He Hdq].
  apply orb_false_iff in He. destruct He as [Hdl Hbt]. auto.
Qed.

(** Reading the escaped text inside double quotes, up to a closing single
    quote and the closing double quote. *)
Lemma sh_dq_survives (t : string) :
  dq_survives t = true ->
  sh_word_from DoubleQuoted
    (replace dollar (String backslash (String dollar EmptyString))
       (replace dquote (String backslash (String dquote EmptyString)) t)
     +:+ String squote (String dquote EmptyString))
  = Some (t +:+ String squote EmptyString).
Proof.
  induction t as [|c t IH]; [reflexivity|].
  cbn [dq_survives]. intros Hs.
  apply andb_true_iff in Hs. destruct Hs as [Hs Ht].
  apply andb_true_iff in Hs. destruct Hs as [Hbt Hlook].
  apply negb_true_iff in Hbt. specialize (IH Ht).
  destruct (Ascii.eqb c dquote) eqn:Hdq.
  { apply Ascii.eqb_eq in Hdq. subst c. cbn. cbn in IH. rewrite IH. reflexivity. }
  destruct (Ascii.eqb c dollar) eqn:Hdl.
  { apply Ascii.eqb_eq in Hdl. subst c. cbn. cbn in IH. rewrite IH. reflexivity. }
  rewrite (esc_cons_plain c t Hdq Hdl), append_cons.
  destruct (Ascii.eqb c backslash) eqn:Hbs.
  - apply Ascii.eqb_eq in Hbs. subst c.
    destruct t as [|d t]; [reflexivity|].
    apply negb_true_iff, orb_false_iff in Hlook. destruct Hlook as [He Hn].
    destruct (dq_escapable_false d He) as [Hd1 [Hd2 [Hd3 Hd4]]].
    rewrite (esc_cons_plain d t Hd3 Hd1), append_cons in *.
    rewrite dq_read_backslash by assumption.
    rewrite dq_read_plain in IH by assumption.
    rewrite IH. reflexivity.
  - rewrite dq_read_plain by assumption. rewrite IH. reflexivity.
Qed.

Lemma dq_survives_quoted (s : string) :
  dq_survives s = true ->
  dq_survives
    (replace squote
       (String squote (String dquote (String squote (String dquote
          (String squote EmptyString))))) s)
  = true.
Proof.
  induction s as [|c s IH]; [reflexivity|].
  cbn [dq_survives]. intros Hs.
  apply andb_true_iff in Hs. destruct Hs as [Hs Hrest].
  apply andb_true_iff in Hs. destruct Hs as [Hbt Hlook].
  specialize (IH Hrest). cbn [replace].
  destruct (Ascii.eqb c squote) eqn:Hsq.
  - cbn. cbn in IH. exact IH.
  - cbn [dq_survives]. rewrite Hbt, IH, andb_true_r. cbn [andb].
    destruct (Ascii.eqb c backslash); [|reflexivity].
    destruct s as [|d s]; [reflexivity|].
    cbn [replace]. destruct (Ascii.eqb d squote); [reflexivity | exact Hlook].
Qed.

Lemma safe_is_inert (s : string) :
  forallb_string is_safe s = true -> forallb_string dq_inert s = true.
Proof.
  induction s as [|c s IH]; [reflexivity|].
  cbn [forallb_string]. intros Hs.
  apply andb_true_iff in Hs. destruct Hs as [Hc Hs].
  destruct (is_safe_plain c Hc) as [_ [_ [_ [Hbs [_ Hbt]]]]].
  unfold dq_inert at 1. rewrite Hbs, Hbt, (IH Hs). reflexivity.
Qed.

(** X13.  The round trip through the two shells holds for every command
    without a backquote in which no backslash stands in front of a
    backslash, a double quote, a dollar sign or a newline: the local shell
    reads the quoted argument back as the [shlex.quote] form and the remote
    shell reads that as the command.  Single and double quotes, dollar
    signs, blanks and other backslashes all survive. *)
Theorem X13_roundtrip_survives (cmd : string) :
  dq_survives cmd = true ->
  sh_dquoted (_prepare_cmd_for_gcloud_ssh cmd) = Some (quote cmd) /\
  shell_roundtrip cmd = Some cmd.
Proof.
  intros Hs.
  assert (sh_dquoted (_prepare_cmd_for_gcloud_ssh cmd) = Some (quote cmd)) as Hq.
  { destruct (String.eqb cmd EmptyString) eqn:Hempty.
    { apply String.eqb_eq in Hempty. subst cmd. reflexivity. }
    destruct (forallb_string is_safe cmd) eqn:Hsafe.
    { apply sh_dquoted_prepare, quote_inert, safe_is_inert, Hsafe. }
    unfold sh_dquoted, sh_word, _prepare_cmd_for_gcloud_ssh, quote.
    rewrite Hempty, Hsafe.
    rewrite (esc_cons_plain squote _ eq_refl eq_refl), !replace_app.
    cbn [sh_word_from].
    change (Ascii.eqb dquote squote) with false.
    change (Ascii.eqb dquote dquote) with true. cbv iota.
    rewrite append_cons, dq_read_plain by reflexivity.
    rewrite append_assoc.
    change (replace dollar (String backslash (String dollar EmptyString))
              (replace dquote (String backslash (String dquote EmptyString))
                 (String squote EmptyString))
            +:+ String dquote EmptyString)
      with (String squote (String dquote EmptyString)).
    rewrite (sh_dq_survives _ (dq_survives_quoted cmd Hs)). reflexivity. }
  split; [exact Hq|].
  unfold shell_roundtrip. rewrite Hq. apply sh_word_quote.
Qed.

Lemma X13_roundtrip_survives_witness :
  shell_roundtrip "grep -E 'a\.b|c' $HOME/it's\"
  = Some "grep -E 'a\.b|c' $HOME/it's\".
Proof.
  apply (X13_roundtrip_survives "grep -E 'a\.b|c' $HOME/it's\"). reflexivity.
Defined.

Lemma replace_keeps_violation old new (s : string) p :
  p old = true ->
  forallb_string p s = false ->
  forallb_string p (replace old new s) = false.
Proof.
  intros Hold. induction s as [|c s IH]; [discriminate|].
  cbn [forallb_string replace]. intros Hv.
  destruct (Ascii.eqb c old) eqn:Hc.
  - apply Ascii.eqb_eq in Hc. subst c. rewrite Hold in Hv. cbn [andb] in Hv.
    rewrite forallb_string_app, (IH Hv). apply andb_false_r.
  - cbn [forallb_string]. destruct (p c); [exact (IH Hv) | reflexivity].
Qed.

(** Inside double quotes a backquote that no backslash precedes is
    reached and starts a substitution. *)
Lemma dq_backquote_substitutes (t k : string) :
  forallb_string (fun c => negb (Ascii.eqb c backslash)) t = true ->
  forallb_string (fun c => negb (Ascii.eqb c backtick)) t = false ->
  sh_word_from DoubleQuoted
    (replace dollar (String backslash (String dollar EmptyString))
       (replace dquote (String backslash (String dquote EmptyString)) t)
     +:+ k)
  = None.
Proof.
  induction t as [|c t IH]; [discriminate|].
  cbn [forallb_string]. intros Hbs Hbt.
  apply andb_true_iff in Hbs. destruct Hbs as [Hc Hbs].
  apply negb_true_iff in Hc.
  destruct (Ascii.eqb c backtick) eqn:Hq.
  - apply Ascii.eqb_eq in Hq. subst c. reflexivity.
  - cbn [negb andb] in Hbt. specialize (IH Hbs Hbt).
    destruct (Ascii.eqb c dquote) eqn:Hdq.
    { apply Ascii.eqb_eq in Hdq. subst c. cbn. cbn in IH. rewrite IH. reflexivity. }
    destruct (Ascii.eqb c dollar) eqn:Hdl.
    { apply Ascii.eqb_eq in Hdl. subst c. cbn. cbn in IH. rewrite IH. reflexivity. }
    rewrite (esc_cons_plain c t Hdq Hdl), append_cons.
    rewrite dq_read_plain by assumption. rewrite IH. reflexivity.
Qed.

Lemma backquote_is_unsafe (s : string) :
  forallb_string (fun c => negb (Ascii.eqb c backtick)) s = false ->
  forallb_string is_safe s = false.
Proof.
  induction s as [|c s IH]; [discriminate|].
  cbn [forallb_string]. intros Hv.
  destruct (is_safe c) eqn:Hc; [|reflexivity].
  destruct (is_safe_plain c Hc) as [_ [_ [_ [_ [_ Hbt]]]]].
  rewrite Hbt in Hv. exact (IH Hv).
Qed.

(** X14.  Every command with a backquote and without a backslash breaks:
    the local shell does not read the quoted argument as plain text, it
    starts a command substitution at the backquote that was left bare. *)
Theorem X14_backquote_breaks (cmd : string) :
  forallb_string (fun c => negb (Ascii.eqb c backslash)) cmd = true ->
  forallb_string (fun c => negb (Ascii.eqb c backtick)) cmd = false ->
  sh_dquoted (_prepare_cmd_for_gcloud_ssh cmd) = None /\
  shell_roundtrip cmd = None.
Proof.
  intros Hbs Hbt.
  assert (sh_dquoted (_prepare_cmd_for_gcloud_ssh cmd) = None) as Hnone.
  { unfold sh_dquoted, sh_word, _prepare_cmd_for_gcloud_ssh.
    cbn [sh_word_from].
    change (Ascii.eqb dquote squote) with false.
    change (Ascii.eqb dquote dquote) with true. cbv iota.
    apply dq_backquote_substitutes.
    - unfold quote.
      destruct (String.eqb cmd EmptyString); [reflexivity|].
      destruct (forallb_string is_safe cmd); [exact Hbs|].
      cbn [forallb_string]. rewrite forallb_string_app.
      rewrite replace_inert; [reflexivity | reflexivity | exact Hbs].
    - unfold quote.
      destruct (String.eqb_spec cmd EmptyString) as [->|_]; [discriminate|].
      rewrite (backquote_is_unsafe cmd Hbt).
      cbn [forallb_string]. rewrite forallb_string_app.
      rewrite (replace_keeps_violation squote _ cmd
                 (fun c => negb (Ascii.eqb c backtick)) eq_refl Hbt).
      reflexivity. }
  split; [exact Hnone|].
  unfold shell_roundtrip. rewrite Hnone. reflexivity.
Qed.

Lemma X14_backquote_breaks_witness :
  shell_roundtrip "tar czf out-`date +%F`.tgz $HOME/out" = None.
Proof.
  apply (X14_backquote_breaks "tar czf out-`date +%F`.tgz $HOME/out");
    reflexivity.
Defined.

(** X15.  The command handed to the inner shell is always quoted: both
    [CPUJob._execute_remote_cmd] and [docker_command] put [pushd /root &&]
    in front of it, so it is never bare and never empty, and the escaped
    text starts and ends with a single quote, for every command, the empty
    one included. *)
Theorem X15_payload_quoted (cmd : string) :
  exists body,
    _prepare_cmd_for_gcloud_ssh ("pushd /root && " +:+ cmd)
    = String squote (body +:+ String squote EmptyString) /\
    (forall image detached_session env volumes extra_docker_flags,
       exists head,
         docker_command cmd image detached_session env volumes extra_docker_flags
         = head +:+ " /bin/bash -c "
             +:+ String squote (body +:+ String squote EmptyString)) /\
    (forall cfg detached_session,
       exists head,
         CPUJob.remote_cmd cfg cmd detached_session
         = head +:+ "sudo -i bash -c "
             +:+ String squote
                   (body +:+ String squote (String dquote EmptyString))).
Proof.
  assert (exists body,
            _prepare_cmd_for_gcloud_ssh ("pushd /root && " +:+ cmd)
            = String squote (body +:+ String squote EmptyString)) as [body Hbody].
  { unfold _prepare_cmd_for_gcloud_ssh, quote.
    change (String.eqb ("pushd /root && " +:+ cmd) EmptyString) with false.
    change (forallb_string is_safe ("pushd /root && " +:+ cmd)) with false.
    cbv iota.
    rewrite (esc_cons_plain squote _ eq_refl eq_refl), !replace_app.
    eexists. reflexivity. }
  exists body. split; [exact Hbody|]. split.
  - intros image detached_session env volumes extra_docker_flags.
    destruct (docker_command_fields cmd image detached_session env volumes
                extra_docker_flags) as [head [Hcmd _]].
    exists head. rewrite Hcmd, Hbody. reflexivity.
  - intros cfg detached_session.
    unfold CPUJob.remote_cmd. rewrite Hbody.
    destruct (truthy detached_session).
    + eexists
        ("gcloud compute -q ssh " +:+ CPUJob.name cfg +:+ " --project="
           +:+ CPUJob.project cfg +:+ " --zone=" +:+ CPUJob.zone cfg
           +:+ " --command=" +:+ String dquote
             ("sudo screen -dmS " +:+ default EmptyString detached_session
                +:+ " ")).
      repeat (rewrite append_assoc || rewrite (append_cons dquote)
              || rewrite (append_cons squote)).
      reflexivity.
    + eexists
        ("gcloud compute -q ssh " +:+ CPUJob.name cfg +:+ " --project="
           +:+ CPUJob.project cfg +:+ " --zone=" +:+ CPUJob.zone cfg
           +:+ " --command=" +:+ String dquote EmptyString).
      repeat (rewrite append_assoc || rewrite (append_cons dquote)
              || rewrite (append_cons squote)).
      reflexivity.
Qed.
